(** * st_fast_rag: streaming relay, persistence gateway and client facade

    A shallow embedding of the backend ([database.py], [crud.py],
    [llm_abstraction.py], [rag_core.py], [main.py]) and of the client
    helpers of [frontend/utils.py], followed by the properties of the
    specification that were checked against it.

    Conventions
    - Python [int] is [Z]; [float] is [Q] (the temperature is only passed
      along, never computed with); [str] is [string].  An [int] that is
      bound as a parameter of a query has to fit the 64 bits of an SQLite
      INTEGER.
    - A Python [dict] with string keys is a [gmap string string].
    - The backend process is a value of [Server]: the database behind the
      SQLAlchemy [Session] and a history of what the process did.  It is
      threaded explicitly through every operation.
    - Exceptions are values of [exn]; a computation that may raise returns
      a [result].
    - [func.now()] is evaluated by the database at flush time; the value it
      has then is the argument [now] of every operation that inserts. *)

From Stdlib Require Import ZArith QArith Lia.
From stdpp Require Import base strings list gmap sorting pretty.

Local Open Scope string_scope.
Local Open Scope list_scope.
Local Open Scope Z_scope.

(** ** Exceptions and results *)

Inductive exn : Type :=
| ValueError (msg : string)       (* ValueError and its subclasses *)
| IntegrityError (msg : string)   (* sqlalchemy.exc.IntegrityError *)
| OverflowError (msg : string)
| Exception (msg : string).       (* any other exception *)

(** [str(e)] *)
Definition str (e : exn) : string :=
  match e with
  | ValueError msg | IntegrityError msg | OverflowError msg | Exception msg =>
      msg
  end.

(** [isinstance(e, ValueError)], the test made by [except ValueError]. *)
Definition is_ValueError (e : exn) : bool :=
  match e with
  | ValueError _ => true
  | _ => false
  end.

Inductive result (A : Type) : Type :=
| Ok (a : A)
| Raise (e : exn).
Arguments Ok {A} a.
Arguments Raise {A} e.

(** ** database.py *)

Module ChatHistory.
(** A row of table [chat_history].  [id] is the primary key; [timestamp]
    defaults to [func.now()]; the five other columns are declared
    [nullable=False] and have no default. *)
Record t : Type := mk {
  id : Z;
  session_id : string;
  timestamp : Z;
  role : string;
  message : string;
  llm_provider : string;
  llm_model : string
}.

Definition tablename : string := "chat_history".
End ChatHistory.

Module Note.
(** A row of table [notes].  [id] is the primary key; [timestamp] defaults
    to [func.now()]; [title], [url], [content], [comments] and [tags] are
    declared [nullable=False] and have no default. *)
Record t : Type := mk {
  id : Z;
  timestamp : Z;
  title : string;
  url : string;
  content : string;
  comments : string;
  tags : string
}.

Definition tablename : string := "notes".
End Note.

(** The database behind a [Session]: the two tables, rows in rowid order. *)
Record Session : Type := mkSession {
  chat_history : list ChatHistory.t;
  notes : list Note.t
}.

(** A model instance built from keyword arguments and not yet flushed:
    the attributes that were given a value.  Every attribute set by this
    program is a [str]. *)
Abbreviation transient := (gmap string string) (only parsing).

(** The value the INSERT binds for a [nullable=False] column: an attribute
    that was never set is bound as NULL and the statement is refused. *)
Definition bind_not_null (table : string) (obj : transient) (column : string)
  : result string :=
  match obj !! column with
  | Some v => Ok v
  | None =>
      Raise (IntegrityError
               ("NOT NULL constraint failed: " +:+ table +:+ "." +:+ column))
  end.

(** Integer primary key assigned by the engine: one more than the largest
    id in the table, 1 for an empty table. *)
Definition next_id (ids : list Z) : Z := 1 + foldr Z.max 0 ids.

(** A Python [int] has no bound; an SQLite INTEGER has 64 bits.  The
    driver refuses to bind an [int] outside that range as a parameter of a
    query. *)
Definition int64 (z : Z) : Prop := - 2 ^ 63 ≤ z < 2 ^ 63.

Global Instance int64_dec z : Decision (int64 z).
Proof. unfold int64. apply _. Defined.

Definition bind_integer (z : Z) : result Z :=
  if decide (int64 z) then Ok z
  else Raise (OverflowError
                "Python int too large to convert to SQLite INTEGER").

(** ** The backend process *)

(** What the process did, oldest first.  The history is not part of the
    program: it records the order of the effects the properties below
    speak about. *)
Inductive event : Type :=
| Persisted (row : ChatHistory.t)            (* a chat row was committed *)
| AdapterCall (provider model_name : string) (* [get_llm] was entered *)
| Sent (chunk : string).                     (* a body chunk left for the caller *)

Record Server : Type := mkServer {
  db : Session;
  history : list event
}.

(** A state-and-exception monad over the process. *)
Definition M (A : Type) : Type := Server → result A * Server.

Definition ret {A} (a : A) : M A := λ s, (Ok a, s).
Definition raise {A} (e : exn) : M A := λ s, (Raise e, s).
Definition bind {A B} (m : M A) (k : A → M B) : M B :=
  λ s, match m s with
       | (Ok a, s') => k a s'
       | (Raise e, s') => (Raise e, s')
       end.
Definition lift {A} (r : result A) : M A := λ s, (r, s).
Definition get_db : M Session := λ s, (Ok (db s), s).
Definition put_db (db' : Session) : M unit :=
  λ s, (Ok tt, mkServer db' (history s)).
Definition tell (e : event) : M unit :=
  λ s, (Ok tt, mkServer (db s) (history s ++ [e])).

(** With these instances stdpp's notations [x ← m; k] and [m;; k] are the
    sequencing of statements. *)
Global Instance M_ret : MRet M := @ret.
Global Instance M_bind : MBind M := λ A B k m, bind m k.

(** [db.add(obj); db.commit(); db.refresh(obj)] for a [ChatHistory]
    instance.  The INSERT binds the [nullable=False] columns in declaration
    order; the commit either appends the row and returns it as refreshed
    from the table, or raises and leaves the table as it was.  A committed
    row is noted in the history. *)
Definition add_commit_refresh_ChatHistory (now : Z) (obj : transient)
  : M ChatHistory.t :=
  let col := bind_not_null ChatHistory.tablename obj in
  s ← lift (col "session_id");
  r ← lift (col "role");
  m ← lift (col "message");
  p ← lift (col "llm_provider");
  md ← lift (col "llm_model");
  d ← get_db;
  let row := ChatHistory.mk (next_id (ChatHistory.id <$> chat_history d))
               s now r m p md in
  put_db (mkSession (chat_history d ++ [row]) (notes d));;
  tell (Persisted row);;
  ret row.

(** The same for a [Note] instance. *)
Definition add_commit_refresh_Note (now : Z) (obj : transient) : M Note.t :=
  let col := bind_not_null Note.tablename obj in
  t ← lift (col "title");
  u ← lift (col "url");
  c ← lift (col "content");
  cm ← lift (col "comments");
  tg ← lift (col "tags");
  d ← get_db;
  let row := Note.mk (next_id (Note.id <$> notes d)) now t u c cm tg in
  put_db (mkSession (chat_history d) (notes d ++ [row]));;
  ret row.

(** Query combinators.  The engine is SQLite ([check_same_thread] in
    [create_engine] is an argument of its driver only): a negative OFFSET
    counts as zero and a negative LIMIT means no bound. *)

Definition offset {A} (skip : Z) (rows : list A) : list A :=
  drop (Z.to_nat skip) rows.

Definition limit {A} (n : Z) (rows : list A) : list A :=
  if decide (n < 0) then rows else take (Z.to_nat n) rows.

(** [.first()] *)
Definition first {A} (rows : list A) : option A := head rows.

(** [ORDER BY timestamp] and [ORDER BY timestamp DESC]. *)
Definition asc {A} (key : A → Z) : relation A := λ a b, key a ≤ key b.
Definition desc {A} (key : A → Z) : relation A := λ a b, key b ≤ key a.

Global Instance asc_dec {A} (key : A → Z) : RelDecision (asc key).
Proof. intros a b; unfold asc; apply _. Defined.
Global Instance desc_dec {A} (key : A → Z) : RelDecision (desc key).
Proof. intros a b; unfold desc; apply _. Defined.

(** The sorter keeps rows with equal keys in the order in which the scan
    of the table delivers them, which is rowid order: each row goes before
    the first row of the rows after it that it does not have to follow. *)
Fixpoint insert_by {A} (R : relation A) `{!RelDecision R} (x : A)
    (rows : list A) : list A :=
  match rows with
  | [] => [x]
  | y :: rows' =>
      if decide (R x y) then x :: rows else y :: insert_by R x rows'
  end.

Definition order_by {A} (R : relation A) `{!RelDecision R} (rows : list A)
  : list A :=
  foldr (insert_by R) [] rows.

(** ** crud.py *)

(** Schema [ChatMessageBase]; [ChatMessageCreate] adds nothing to it.
    Every field is a plain [str]: the comment on [role] names "user" and
    "assistant", the type does not restrict it. *)
Module ChatMessageCreate.
Record t : Type := mk {
  session_id : string;
  role : string;
  message : string;
  llm_provider : string;
  llm_model : string
}.

(** [message.dict().items()], in field order. *)
Definition dict (m : t) : list (string * string) :=
  [("session_id", session_id m); ("role", role m); ("message", message m);
   ("llm_provider", llm_provider m); ("llm_model", llm_model m)].
End ChatMessageCreate.

(** Schema [NoteBase]; [NoteCreate] and [NoteUpdate] add nothing to it. *)
Module NoteBase.
Record t : Type := mk {
  title : string;
  content : string
}.

(** [note.dict().items()], in field order. *)
Definition dict (n : t) : list (string * string) :=
  [("title", title n); ("content", content n)].
End NoteBase.

Abbreviation NoteCreate := NoteBase.t (only parsing).
Abbreviation NoteUpdate := NoteBase.t (only parsing).

Definition default_skip : Z := 0.
Definition default_limit : Z := 100.

Definition create_chat_message (now : Z) (message : ChatMessageCreate.t)
  : M ChatHistory.t :=
  let db_message : transient := list_to_map (ChatMessageCreate.dict message) in
  add_commit_refresh_ChatHistory now db_message.

(** [skip] and [limit] are bound as the parameters of OFFSET and LIMIT. *)
Definition get_chat_history (d : Session) (session_id : string)
    (skip limit_ : Z) : result (list ChatHistory.t) :=
  match bind_integer limit_, bind_integer skip with
  | Ok limit_, Ok skip =>
      Ok (limit limit_
            (offset skip
               (order_by (asc ChatHistory.timestamp)
                  (filter (λ m, ChatHistory.session_id m = session_id)
                     (chat_history d)))))
  | Raise e, _ | _, Raise e => Raise e
  end.

Definition create_note (now : Z) (note : NoteCreate) : M Note.t :=
  let db_note : transient := list_to_map (NoteBase.dict note) in
  add_commit_refresh_Note now db_note.

(** [note_id] is bound as the parameter of the comparison. *)
Definition get_note (d : Session) (note_id : Z) : result (option Note.t) :=
  match bind_integer note_id with
  | Ok note_id => Ok (first (filter (λ n, Note.id n = note_id) (notes d)))
  | Raise e => Raise e
  end.

Definition get_notes (d : Session) (skip limit_ : Z) : result (list Note.t) :=
  match bind_integer limit_, bind_integer skip with
  | Ok limit_, Ok skip =>
      Ok (limit limit_ (offset skip (order_by (desc Note.timestamp) (notes d))))
  | Raise e, _ | _, Raise e => Raise e
  end.

(** [setattr(db_note, var, value)] on a loaded row.  A name that is not a
    column becomes a plain attribute of the Python object and changes
    nothing that is stored. *)
Definition setattr (n : Note.t) (var value : string) : Note.t :=
  let '(Note.mk i ts t u c cm tg) := n in
  if decide (var = "title") then Note.mk i ts value u c cm tg
  else if decide (var = "url") then Note.mk i ts t value c cm tg
  else if decide (var = "content") then Note.mk i ts t u value cm tg
  else if decide (var = "comments") then Note.mk i ts t u c value tg
  else if decide (var = "tags") then Note.mk i ts t u c cm value
  else n.

(** The UPDATE issued by the commit for a modified row, by primary key. *)
Definition flush_update (n : Note.t) (rows : list Note.t) : list Note.t :=
  (λ r, if decide (Note.id r = Note.id n) then n else r) <$> rows.

(** The DELETE issued by the commit for a deleted row, by primary key. *)
Definition flush_delete (n : Note.t) (rows : list Note.t) : list Note.t :=
  filter (λ r, Note.id r ≠ Note.id n) rows.

Definition update_note (note_id : Z) (note : NoteUpdate)
  : M (option Note.t) :=
  d ← get_db;
  note_id ← lift (bind_integer note_id);
  match first (filter (λ n, Note.id n = note_id) (notes d)) with
  | Some db_note =>
      let db_note :=
        foldl (λ n '(var, value), setattr n var value) db_note
          (NoteBase.dict note) in
      put_db (mkSession (chat_history d) (flush_update db_note (notes d)));;
      ret (Some db_note)
  | None => ret None
  end.

Definition delete_note (note_id : Z) : M (option Note.t) :=
  d ← get_db;
  note_id ← lift (bind_integer note_id);
  match first (filter (λ n, Note.id n = note_id) (notes d)) with
  | Some db_note =>
      put_db (mkSession (chat_history d) (flush_delete db_note (notes d)));;
      ret (Some db_note)
  | None => ret None
  end.

(** ** llm_abstraction.py *)

Inductive client_class : Type :=
| ChatAnthropic
| ChatOpenAI
| ChatGoogleGenerativeAI.

(** What the three client constructors are given, and the chat model they
    build from it.  The Gemini client takes the token budget as
    [max_output_tokens]. *)
Record BaseChatModel : Type := mkChatModel {
  client : client_class;
  model : string;
  temperature : Q;
  max_tokens : Z;
  streaming : bool;
  api_key : string
}.

(** [os.getenv(name)] *)
Definition getenv (environ : gmap string string) (name : string)
  : option string :=
  environ !! name.

(** The truth value of [api_key]: a variable that is unset, or set to the
    empty string, is falsy. *)
Definition truthy (api_key : option string) : option string :=
  match api_key with
  | Some v => if decide (v = "") then None else Some v
  | None => None
  end.

(** Calling a client class.  The classes belong to LangChain: each
    validates its arguments and may refuse them with an exception
    ([init_error] gives it); otherwise the model is built from them. *)
Definition construct (init_error : BaseChatModel → option exn)
    (kwargs : BaseChatModel) : result BaseChatModel :=
  match init_error kwargs with
  | None => Ok kwargs
  | Some e => Raise e
  end.

Definition get_llm (environ : gmap string string)
    (init_error : BaseChatModel → option exn) (provider model_name : string)
    (temperature : Q) (max_tokens : Z) (streaming : bool)
  : result BaseChatModel :=
  if decide (provider = "claude") then
    let api_key := getenv environ "ANTHROPIC_API_KEY" in
    match truthy api_key with
    | None =>
        Raise (ValueError "ANTHROPIC_API_KEY environment variable not set.")
    | Some api_key =>
        construct init_error
          (mkChatModel ChatAnthropic model_name temperature max_tokens
             streaming api_key)
    end
  else if decide (provider = "openai") then
    let api_key := getenv environ "OPENAI_API_KEY" in
    match truthy api_key with
    | None =>
        Raise (ValueError "OPENAI_API_KEY environment variable not set.")
    | Some api_key =>
        construct init_error
          (mkChatModel ChatOpenAI model_name temperature max_tokens
             streaming api_key)
    end
  else if decide (provider = "gemini") then
    let api_key := getenv environ "GOOGLE_API_KEY" in
    match truthy api_key with
    | None =>
        Raise (ValueError "GOOGLE_API_KEY environment variable not set.")
    | Some api_key =>
        construct init_error
          (mkChatModel ChatGoogleGenerativeAI model_name temperature
             max_tokens streaming api_key)
    end
  else Raise (ValueError ("Unsupported LLM provider: " +:+ provider)).

(** [LLM_MODELS]: display name and model identifier, per provider. *)
Definition LLM_MODELS : list (string * list (string * string)) :=
  [("claude",
    [("Sonnet 3.5", "claude-3-5-sonnet-20240620");
     ("Opus 3", "claude-3-opus-20240229");
     ("Haiku 3", "claude-3-haiku-20240307")]);
   ("openai",
    [("GPT-4o", "gpt-4o");
     ("GPT-4o-mini", "gpt-4o-mini");
     ("GPT-3.5 Turbo", "gpt-3.5-turbo")]);
   ("gemini",
    [("Gemini 1.5 Flash", "gemini-1.5-flash");
     ("Gemini 1.5 Pro", "gemini-1.5-pro")])].

(** ** rag_core.py *)

(** The two prompt templates of [get_llm_chain]. *)
Inductive prompt : Type :=
| SimplePrompt
| ContextPrompt (context_data : string).

(** The chain [prompt | llm | StrOutputParser()]. *)
Record Runnable : Type := mkChain {
  chain_prompt : prompt;
  chain_llm : BaseChatModel
}.

(** [use_rag_context and context_data]: the flag is set and the context is
    a non-empty string. *)
Definition get_llm_chain (llm : BaseChatModel) (use_rag_context : bool)
    (context_data : option string) : Runnable :=
  match use_rag_context, context_data with
  | true, Some c =>
      if decide (c = "") then mkChain SimplePrompt llm
      else mkChain (ContextPrompt c) llm
  | _, _ => mkChain SimplePrompt llm
  end.

(** What [chain.astream(...)] produces when it is iterated: text chunks,
    then either the end of the iteration or an exception raised by the
    provider call. *)
Inductive stream : Type :=
| Exhausted
| Chunk (chunk : string) (rest : stream)
| Failure (e : exn).

(** Everything outside the process: the environment variables read by
    [os.getenv], the validation made by the client classes of LangChain,
    and the provider behind them, which decides what a chain streams for
    a question. *)
Record World : Type := mkWorld {
  environ : gmap string string;
  init_error : BaseChatModel → option exn;
  astream : Runnable → string → stream
}.

(** ** main.py *)

Module GenerateRequest.
(** The request model after the defaults (temperature 0.3, max_tokens
    1024, rag_enabled False) were filled in. *)
Record t : Type := mk {
  question : string;
  llm_provider : string;
  llm_model : string;
  temperature : Q;
  max_tokens : Z;
  session_id : string;
  rag_enabled : bool
}.

(** [Literal["claude", "openai", "gemini"]] *)
Definition providers : list string := ["claude"; "openai"; "gemini"].

(** The only constraint the model puts on a well-typed body: the
    provider is one of the literals.  The other fields are [str],
    [float], [int] and [bool] without bounds. *)
Definition validate (r : t) : bool :=
  bool_decide (llm_provider r ∈ providers).
End GenerateRequest.

(** What an endpoint answers. *)
Inductive response (A : Type) : Type :=
| Success (body : A)
| HTTPException (status_code : Z) (detail : string)
| RequestValidationError            (* the body does not fit the request model *)
| InternalServerError (e : exn).    (* an exception left the handler *)
Arguments Success {A} body.
Arguments HTTPException {A} status_code detail.
Arguments RequestValidationError {A}.
Arguments InternalServerError {A} e.

Definition status_code {A} (r : response A) : Z :=
  match r with
  | Success _ => 200
  | HTTPException code _ => code
  | RequestValidationError => 422
  | InternalServerError _ => 500
  end.

(** The async generator [generate_response_chunks]: a closure over the
    request, the chain and the variable [assistant_response_full] of the
    enclosing call, and the point at which it is parked. *)
Inductive gen_state : Type :=
| Created                       (* body not entered yet *)
| Suspended (rest : stream)     (* parked at [yield] *)
| Finished.

Record generator : Type := mkGenerator {
  request : GenerateRequest.t;
  chain : Runnable;
  assistant_response_full : string;
  state : gen_state
}.

(** One turn of the [async for] loop and, once the loop is over, the rest
    of the body. *)
Definition resume (now : Z) (g : generator) (s : stream)
  : M (option string * generator) :=
  match s with
  | Chunk chunk rest =>
      ret (Some chunk,
           mkGenerator (request g) (chain g)
             (assistant_response_full g +:+ chunk) (Suspended rest))
  | Exhausted =>
      let assistant_message_data :=
        ChatMessageCreate.mk
          (GenerateRequest.session_id (request g))
          "assistant"
          (assistant_response_full g)
          (GenerateRequest.llm_provider (request g))
          (GenerateRequest.llm_model (request g)) in
      create_chat_message now assistant_message_data;;
      ret (None,
           mkGenerator (request g) (chain g) (assistant_response_full g)
             Finished)
  | Failure e => raise e
  end.

(** [__anext__]: [Some chunk] is a yielded chunk, [None] is
    StopAsyncIteration, a raised exception is the exception leaving the
    generator. *)
Definition anext (w : World) (now : Z) (g : generator)
  : M (option string * generator) :=
  match state g with
  | Created =>
      resume now g
        (astream w (chain g) (GenerateRequest.question (request g)))
  | Suspended rest => resume now g rest
  | Finished => ret (None, g)
  end.

(** How the body of a streaming response ended. *)
Inductive delivery : Type :=
| Complete        (* the generator was exhausted *)
| Disconnected.   (* the caller went away; the generator is dropped *)

(** [StreamingResponse]: the server iterates the generator and sends each
    chunk as it is yielded, which the history notes.  [pulls] is the number
    of times the server resumes the generator before the caller goes away
    (the generator is then dropped where it is parked); [clock i] is the
    time at the i-th resumption. *)
Fixpoint stream_response (w : World) (clock : nat → Z) (pulls : nat)
    (g : generator) : M delivery :=
  match pulls with
  | O => ret Disconnected
  | S pulls' =>
      r ← anext w (clock O) g;
      match r with
      | (Some chunk, g') =>
          tell (Sent chunk);;
          stream_response w (λ i, clock (S i)) pulls' g'
      | (None, _) => ret Complete
      end
  end.

(** The body of the [try] block of [generate_stream].  The call of
    [get_llm] is noted in the history before it is made. *)
Definition generate_stream_try (w : World) (now : Z)
    (request : GenerateRequest.t) : M generator :=
  let user_message_data :=
    ChatMessageCreate.mk
      (GenerateRequest.session_id request)
      "user"
      (GenerateRequest.question request)
      (GenerateRequest.llm_provider request)
      (GenerateRequest.llm_model request) in
  create_chat_message now user_message_data;;
  tell (AdapterCall (GenerateRequest.llm_provider request)
          (GenerateRequest.llm_model request));;
  llm ← lift (get_llm (environ w) (init_error w)
                (GenerateRequest.llm_provider request)
                (GenerateRequest.llm_model request)
                (GenerateRequest.temperature request)
                (GenerateRequest.max_tokens request)
                true);
  let chain := get_llm_chain llm false None in
  let assistant_response_full := "" in
  ret (mkGenerator request chain assistant_response_full Created).

(** The handler: the [try] block and its two [except] clauses. *)
Definition generate_stream (w : World) (now : Z)
    (request : GenerateRequest.t) : Server → response generator * Server :=
  λ s,
    match generate_stream_try w now request s with
    | (Ok g, s') => (Success g, s')
    | (Raise e, s') =>
        if is_ValueError e
        then (HTTPException 400 (str e), s')
        else (HTTPException 500 ("Internal server error: " +:+ str e), s')
    end.

(** [POST /generate_stream]: the body is checked against the request model
    before the handler is entered. *)
Definition post_generate_stream (w : World) (now : Z)
    (body : GenerateRequest.t) : Server → response generator * Server :=
  λ s,
    if GenerateRequest.validate body
    then generate_stream w now body s
    else (RequestValidationError, s).

(** A handler without [try]: an exception that leaves it is answered by
    the server. *)
Definition handler {A} (m : M A) : Server → response A * Server :=
  λ s,
    match m s with
    | (Ok a, s') => (Success a, s')
    | (Raise e, s') => (InternalServerError e, s')
    end.

(** The note handlers answer 404 when the CRUD call returns [None]. *)
Definition or_404 {A} (m : M (option A)) : Server → response A * Server :=
  λ s,
    match m s with
    | (Ok (Some a), s') => (Success a, s')
    | (Ok None, s') => (HTTPException 404 "Note not found", s')
    | (Raise e, s') => (InternalServerError e, s')
    end.

Definition get_session_chat_history (session_id : string)
  : Server → response (list ChatHistory.t) * Server :=
  handler (d ← get_db;
           lift (get_chat_history d session_id default_skip default_limit)).

Definition create_new_chat_message (now : Z) (message : ChatMessageCreate.t)
  : Server → response ChatHistory.t * Server :=
  handler (create_chat_message now message).

Definition read_notes (skip limit_ : Z)
  : Server → response (list Note.t) * Server :=
  handler (d ← get_db; lift (get_notes d skip limit_)).

Definition read_note (note_id : Z) : Server → response Note.t * Server :=
  or_404 (d ← get_db; lift (get_note d note_id)).

Definition create_new_note (now : Z) (note : NoteCreate)
  : Server → response Note.t * Server :=
  handler (create_note now note).

Definition update_existing_note (note_id : Z) (note : NoteUpdate)
  : Server → response Note.t * Server :=
  or_404 (update_note note_id note).

Definition delete_existing_note (note_id : Z)
  : Server → response Note.t * Server :=
  or_404 (delete_note note_id).

(** ** frontend/utils.py *)

Module Utils.

#[local] Unset Elimination Schemes.

(** A decoded JSON body. *)
Inductive json : Type :=
| JNull
| JBool (b : bool)
| JInt (z : Z)
| JStr (s : string)
| JList (items : list json)
| JDict (items : list (string * json)).

#[local] Set Elimination Schemes.

(** The exceptions the three [except] clauses tell apart. *)
Inductive client_exn : Type :=
| HTTPStatusError (status_code : Z) (text : string)
| RequestError (msg : string)
| OtherException (msg : string).

(** A response as the client sees it; [body] is [None] when the text is
    not JSON, in which case [response.json()] raises. *)
Record http_response : Type := mkResponse {
  resp_status : Z;
  resp_text : string;
  resp_body : option json
}.

(** What [await client.get/post/put/delete(...)] does: it returns a
    response or raises. *)
Inductive attempt : Type :=
| Answered (r : http_response)
| Raised (e : client_exn).

Record http_request : Type := mkRequest {
  method : string;
  url : string;
  payload : option json
}.

(** What a client function does for its caller. *)
Inductive outcome (A : Type) : Type :=
| Returns (a : A)
| Raises (e : client_exn).
Arguments Returns {A} a.
Arguments Raises {A} e.

(** Calls into the page: [st.error], [st.success]. *)
Inductive st_call : Type :=
| st_error (what : string) (e : client_exn)
| st_success (msg : string).

(** [response.raise_for_status()] raises unless the status is a success
    status (2xx): also for 1xx and 3xx, beyond what the comments in the
    source say ("4xx or 5xx").  Redirects are not followed. *)
Definition is_success (status : Z) : bool :=
  bool_decide (200 ≤ status < 300).

Definition is_error (status : Z) : bool := negb (is_success status).

Definition raise_for_status (r : http_response) : outcome http_response :=
  if is_error (resp_status r)
  then Raises (HTTPStatusError (resp_status r) (resp_text r))
  else Returns r.

(** [response.json()] *)
Definition response_json (r : http_response) : outcome json :=
  match resp_body r with
  | Some j => Returns j
  | None => Raises (OtherException "JSONDecodeError")
  end.

Section Client.
(** The backend as reached over the network, and its base URL. *)
Variable send : http_request → attempt.
Variable API_BASE_URL : string.

(** The statements of a [try] block up to and including
    [response.raise_for_status()]. *)
Definition request_ok (req : http_request) : outcome http_response :=
  match send req with
  | Answered r => raise_for_status r
  | Raised e => Raises e
  end.

Definition chat_message_payload
    (session_id role message llm_provider llm_model : string) : json :=
  JDict [("session_id", JStr session_id); ("role", JStr role);
         ("message", JStr message); ("llm_provider", JStr llm_provider);
         ("llm_model", JStr llm_model)].

Definition note_payload (title content : string) : json :=
  JDict [("title", JStr title); ("content", JStr content)].

(** Every [except] clause of this function ends in [raise]. *)
Definition save_chat_message_to_backend
    (session_id role message llm_provider llm_model : string)
  : list st_call * outcome unit :=
  let json_payload :=
    chat_message_payload session_id role message llm_provider llm_model in
  match request_ok (mkRequest "POST" (API_BASE_URL +:+ "/chat_history/")
                      (Some json_payload)) with
  | Returns _ => ([], Returns tt)
  | Raises (HTTPStatusError c t) =>
      ([st_error "Failed to save chat message (HTTP Error)"
          (HTTPStatusError c t)],
       Raises (HTTPStatusError c t))
  | Raises (RequestError m) =>
      ([st_error "Network error saving chat message" (RequestError m)],
       Raises (RequestError m))
  | Raises (OtherException m) =>
      ([st_error "An unexpected error occurred while saving chat message"
          (OtherException m)],
       Raises (OtherException m))
  end.

(** Every [except] clause of the two listing functions ends in
    [return []]. *)
Definition get_chat_history_from_backend (session_id : string)
  : list st_call * outcome json :=
  let tried :=
    match request_ok (mkRequest "GET"
                        (API_BASE_URL +:+ "/chat_history/" +:+ session_id)
                        None) with
    | Returns response => response_json response
    | Raises e => Raises e
    end in
  match tried with
  | Returns j => ([], Returns j)
  | Raises (HTTPStatusError c t) =>
      ([st_error "Failed to retrieve chat history (HTTP Error)"
          (HTTPStatusError c t)],
       Returns (JList []))
  | Raises (RequestError m) =>
      ([st_error "Network error retrieving chat history" (RequestError m)],
       Returns (JList []))
  | Raises (OtherException m) =>
      ([st_error
          "An unexpected error occurred while retrieving chat history"
          (OtherException m)],
       Returns (JList []))
  end.

Definition get_notes_from_backend : list st_call * outcome json :=
  let tried :=
    match request_ok (mkRequest "GET" (API_BASE_URL +:+ "/notes/")
                        None) with
    | Returns response => response_json response
    | Raises e => Raises e
    end in
  match tried with
  | Returns j => ([], Returns j)
  | Raises (HTTPStatusError c t) =>
      ([st_error "Failed to retrieve notes (HTTP Error)"
          (HTTPStatusError c t)],
       Returns (JList []))
  | Raises (RequestError m) =>
      ([st_error "Network error retrieving notes" (RequestError m)],
       Returns (JList []))
  | Raises (OtherException m) =>
      ([st_error "An unexpected error occurred while retrieving notes"
          (OtherException m)],
       Returns (JList []))
  end.

(** Every [except] clause of the two note writers ends in
    [return None]; [st.success] is called before the body is decoded. *)
Definition create_note_backend (title content : string)
  : list st_call * outcome (option json) :=
  let json_payload := note_payload title content in
  match request_ok (mkRequest "POST" (API_BASE_URL +:+ "/notes/")
                      (Some json_payload)) with
  | Returns response =>
      match response_json response with
      | Returns j =>
          ([st_success "Note created successfully!"], Returns (Some j))
      | Raises e =>
          ([st_success "Note created successfully!";
            st_error "An unexpected error occurred while creating note" e],
           Returns None)
      end
  | Raises (HTTPStatusError c t) =>
      ([st_error "Failed to create note (HTTP Error)"
          (HTTPStatusError c t)],
       Returns None)
  | Raises (RequestError m) =>
      ([st_error "Network error creating note" (RequestError m)],
       Returns None)
  | Raises (OtherException m) =>
      ([st_error "An unexpected error occurred while creating note"
          (OtherException m)],
       Returns None)
  end.

Definition update_note_backend (note_id : Z) (title content : string)
  : list st_call * outcome (option json) :=
  let json_payload := note_payload title content in
  match request_ok (mkRequest "PUT"
                      (API_BASE_URL +:+ "/notes/" +:+ pretty note_id)
                      (Some json_payload)) with
  | Returns response =>
      match response_json response with
      | Returns j =>
          ([st_success "Note updated successfully!"], Returns (Some j))
      | Raises e =>
          ([st_success "Note updated successfully!";
            st_error "An unexpected error occurred while updating note" e],
           Returns None)
      end
  | Raises (HTTPStatusError c t) =>
      ([st_error "Failed to update note (HTTP Error)"
          (HTTPStatusError c t)],
       Returns None)
  | Raises (RequestError m) =>
      ([st_error "Network error updating note" (RequestError m)],
       Returns None)
  | Raises (OtherException m) =>
      ([st_error "An unexpected error occurred while updating note"
          (OtherException m)],
       Returns None)
  end.

(** Every [except] clause of the delete function ends in
    [return False]. *)
Definition delete_note_backend (note_id : Z)
  : list st_call * outcome bool :=
  match request_ok (mkRequest "DELETE"
                      (API_BASE_URL +:+ "/notes/" +:+ pretty note_id)
                      None) with
  | Returns _ => ([st_success "Note deleted successfully!"], Returns true)
  | Raises (HTTPStatusError c t) =>
      ([st_error "Failed to delete note (HTTP Error)"
          (HTTPStatusError c t)],
       Returns false)
  | Raises (RequestError m) =>
      ([st_error "Network error deleting note" (RequestError m)],
       Returns false)
  | Raises (OtherException m) =>
      ([st_error "An unexpected error occurred while deleting note"
          (OtherException m)],
       Returns false)
  end.
End Client.

(** The request did not go through: the call raised, or the status is
    not a success status. *)
Definition failed (a : attempt) : Prop :=
  match a with
  | Raised _ => True
  | Answered r => is_error (resp_status r) = true
  end.

(** The request went through and the body is not JSON. *)
Definition undecodable (a : attempt) : Prop :=
  match a with
  | Raised _ => False
  | Answered r => is_error (resp_status r) = false ∧ resp_body r = None
  end.

End Utils.

(** ** frontend/utils.py: the session state and the streaming call *)

Module SessionState.
(** A value kept in [st.session_state] by the configuration code. *)
Inductive value : Type :=
| VStr (s : string)
| VFloat (q : Q)
| VInt (z : Z)
| VBool (b : bool).

(** [if key not in st.session_state: st.session_state.key = v] *)
Definition init_key (key : string) (v : value)
    (session_state : gmap string value) : gmap string value :=
  match session_state !! key with
  | Some _ => session_state
  | None => <[key := v]> session_state
  end.

Definition initialize_llm_config_session_state
    (session_state : gmap string value) : gmap string value :=
  let session_state := init_key "llm_provider" (VStr "gemini") session_state in
  let session_state :=
    init_key "llm_model" (VStr "gemini-2.5-flash") session_state in
  let session_state := init_key "temperature" (VFloat (3 # 10)) session_state in
  let session_state := init_key "max_tokens" (VInt 1024) session_state in
  init_key "rag_enabled" (VBool false) session_state.

(** The five keys the function looks after. *)
Definition config_keys : list string :=
  ["llm_provider"; "llm_model"; "temperature"; "max_tokens"; "rag_enabled"].
End SessionState.

Module StreamingCall.
Import Utils.

(** The body of a streaming response as [response.aiter_bytes()] delivers
    it: chunks of bytes, then the end of the body or an exception of the
    transport. *)
Inductive body : Type :=
| EndOfBody
| Bytes (chunk : list Byte.byte) (rest : body)
| Broken (e : client_exn).

(** What entering [client.stream("POST", ...)] gives: a response (status,
    error text as [aread] then [.text] give it, or the message of the
    exception they raise, and body), or an exception. *)
Record streamed : Type := mkStreamed {
  streamed_status : Z;
  streamed_text : string + string;
  streamed_body : body
}.

Inductive stream_attempt : Type :=
| Entered (r : streamed)
| NotEntered (e : client_exn).

(** [st.error] and [st.info] with the text they show. *)
Inductive notice : Type :=
| error (text : string)
| info (text : string).

(** What iterating the async generator gives its consumer: chunks of
    text, then StopAsyncIteration or an exception, raised after the
    notices were shown. *)
Inductive chunks : Type :=
| Stop
| Yield (chunk : string) (rest : chunks)
| Throw (shown : list notice) (e : client_exn).

Section Call.
(** The backend as reached over the network for a streaming POST (URL and
    JSON payload, whose fields are those of the request model),
    [bytes.decode("utf-8")], and the base URL. *)
Variable send : string → GenerateRequest.t → stream_attempt.
Variable decode : list Byte.byte → option string.
Variable API_BASE_URL : string.

(** The three [except] clauses, each of which ends in [raise]: what they
    show for an exception.  [read_exc] is the message of the exception
    raised while the error body was read, if one was. *)
Definition report (read_exc : option string) (e : client_exn) : list notice :=
  match e with
  | HTTPStatusError code text =>
      let error_text := "Status code: " +:+ pretty code +:+ ". Response: " in
      let error_text :=
        match read_exc with
        | None => error_text +:+ text
        | Some read_exc =>
            error_text +:+ "(Failed to read error response body: "
            +:+ read_exc +:+ ")"
        end in
      [error ("Backend HTTP error: " +:+ error_text)]
  | RequestError msg =>
      [error ("Network error communicating with backend: " +:+ msg);
       info ("Please ensure the FastAPI backend is running at "
             +:+ API_BASE_URL)]
  | OtherException msg =>
      [error ("An unexpected error occurred during API call: " +:+ msg)]
  end.

(** [async for chunk in response.aiter_bytes(): yield chunk.decode("utf-8")] *)
Fixpoint relay (b : body) : chunks :=
  match b with
  | EndOfBody => Stop
  | Bytes chunk rest =>
      match decode chunk with
      | Some text => Yield text (relay rest)
      | None =>
          let e := OtherException "UnicodeDecodeError" in
          Throw (report None e) e
      end
  | Broken e => Throw (report None e) e
  end.

Definition call_generate_stream_api (question llm_provider llm_model : string)
    (temperature : Q) (max_tokens : Z) (session_id : string)
    (rag_enabled : bool) : chunks :=
  let json_payload :=
    GenerateRequest.mk question llm_provider llm_model temperature max_tokens
      session_id rag_enabled in
  match send (API_BASE_URL +:+ "/generate_stream") json_payload with
  | NotEntered e => Throw (report None e) e
  | Entered response =>
      if is_error (streamed_status response)
      then
        match streamed_text response with
        | inl text =>
            let e := HTTPStatusError (streamed_status response) text in
            Throw (report None e) e
        | inr read_exc =>
            let e := HTTPStatusError (streamed_status response) "" in
            Throw (report (Some read_exc) e) e
        end
      else relay (streamed_body response)
  end.
End Call.

(** The chunks a consumer receives before the iteration ends, and the
    exception that ends it, if any. *)
Fixpoint yielded (c : chunks) : list string :=
  match c with
  | Yield chunk rest => chunk :: yielded rest
  | Stop | Throw _ _ => []
  end.

Fixpoint thrown (c : chunks) : option client_exn :=
  match c with
  | Yield _ rest => thrown rest
  | Stop => None
  | Throw _ e => Some e
  end.
End StreamingCall.

(** ** The response schema of a chat message, as JSON *)

(** [ChatMessageResponse] built from a row ([from_attributes]) and
    serialized: the fields of [ChatMessageBase], then [id] and
    [timestamp].  [isoformat] renders a timestamp. *)
Definition ChatMessageResponse (isoformat : Z → string) (row : ChatHistory.t)
  : Utils.json :=
  Utils.JDict
    [("session_id", Utils.JStr (ChatHistory.session_id row));
     ("role", Utils.JStr (ChatHistory.role row));
     ("message", Utils.JStr (ChatHistory.message row));
     ("llm_provider", Utils.JStr (ChatHistory.llm_provider row));
     ("llm_model", Utils.JStr (ChatHistory.llm_model row));
     ("id", Utils.JInt (ChatHistory.id row));
     ("timestamp", Utils.JStr (isoformat (ChatHistory.timestamp row)))].

(** ** frontend/pages/1_Chat_with_LLM.py *)

Module ChatPage.
Import Utils.

(** The exceptions of a subscript [message[key]]. *)
Inductive page_exn : Type :=
| KeyError (key : string)
| TypeError.

(** [d[key]] for a decoded JSON value: the value of the key in a dict (the
    keys of a dict are distinct), KeyError when the dict has no such key,
    TypeError when the value is not a dict. *)
Definition getitem (d : json) (key : string) : page_exn + json :=
  match d with
  | JDict items =>
      match list_find (λ kv, kv.1 = key) items with
      | Some (_, (_, v)) => inr v
      | None => inl (KeyError key)
      end
  | _ => inl TypeError
  end.

(** What the page draws. *)
Inductive drawn : Type :=
| chat_message (name : json)
| markdown (body : json)
| placeholder (text : string)
| st_error (e : client_exn)
| st_notice (n : StreamingCall.notice).

(** [display_chat_messages]: what was drawn, and the exception that
    stopped the loop, if any. *)
Fixpoint display_chat_messages (messages : list json)
  : list drawn * option page_exn :=
  match messages with
  | [] => ([], None)
  | message :: rest =>
      match getitem message "role" with
      | inl e => ([], Some e)
      | inr role =>
          match getitem message "content" with
          | inl e => ([chat_message role], Some e)
          | inr content =>
              let '(more, e) := display_chat_messages rest in
              (chat_message role :: markdown content :: more, e)
          end
      end
  end.

(** The attributes of [st.session_state] the chat turn reads and writes. *)
Record session_state : Type := mkState {
  messages : list json;
  current_response : string;
  chat_session_id : string;
  llm_provider : string;
  llm_model : string;
  temperature : Q;
  max_tokens : Z;
  rag_enabled : bool
}.

Definition set_messages (messages' : list json) (st : session_state)
  : session_state :=
  mkState messages' (current_response st) (chat_session_id st)
    (llm_provider st) (llm_model st) (temperature st) (max_tokens st)
    (rag_enabled st).

Definition set_current_response (text : string) (st : session_state)
  : session_state :=
  mkState (messages st) text (chat_session_id st) (llm_provider st)
    (llm_model st) (temperature st) (max_tokens st) (rag_enabled st).

(** The blinking cursor appended to a partial response. *)
Definition cursor : string := "▌".

(** The [async for] loop of [get_streaming_response]: each chunk is
    appended to [current_response] and the placeholder is redrawn. *)
Fixpoint receive (c : StreamingCall.chunks) (st : session_state)
  : list drawn * session_state * option client_exn :=
  match c with
  | StreamingCall.Stop => ([], st, None)
  | StreamingCall.Yield chunk rest =>
      let st := set_current_response (current_response st +:+ chunk) st in
      let '(more, st', e) := receive rest st in
      (placeholder (current_response st +:+ cursor) :: more, st', e)
  | StreamingCall.Throw shown e => (st_notice <$> shown, st, Some e)
  end.

(** [messages[-1]["role"] == "user"] *)
Definition is_user (role : json) : bool :=
  match role with
  | JStr s => bool_decide (s = "user")
  | _ => false
  end.

(** [get_streaming_response], given what the streaming call yields: what
    was drawn, the session state afterwards, and the exception that left
    the [except] block, if any. *)
Definition get_streaming_response (c : StreamingCall.chunks)
    (st : session_state) : list drawn * session_state * option page_exn :=
  match receive c st with
  | (shown, st, None) =>
      let assistant :=
        JDict [("role", JStr "assistant");
               ("content", JStr (current_response st));
               ("llm_provider", JStr (llm_provider st));
               ("llm_model", JStr (llm_model st))] in
      (shown ++ [placeholder (current_response st)],
       set_messages (messages st ++ [assistant]) st, None)
  | (shown, st, Some e) =>
      let shown := shown ++ [st_error e] in
      match last (messages st) with
      | None => (shown, set_current_response "" st, None)
      | Some message =>
          match getitem message "role" with
          | inl ke => (shown, st, Some ke)
          | inr role =>
              if is_user role
              then (shown,
                    set_current_response ""
                      (set_messages (removelast (messages st)) st), None)
              else (shown, set_current_response "" st, None)
          end
      end
  end.

Section Turn.
Variable send : string → GenerateRequest.t → StreamingCall.stream_attempt.
Variable decode : list Byte.byte → option string.
Variable API_BASE_URL : string.

(** The block run for a prompt: an empty prompt is falsy and nothing
    happens; otherwise the user message is appended and drawn, the
    response is reset, and the backend is called with the settings of the
    session. *)
Definition on_prompt (prompt : string) (st : session_state)
  : list drawn * session_state * option page_exn :=
  if decide (prompt = "") then ([], st, None)
  else
    let user := JDict [("role", JStr "user"); ("content", JStr prompt)] in
    let st := set_messages (messages st ++ [user]) st in
    let st := set_current_response "" st in
    let stream_generator :=
      StreamingCall.call_generate_stream_api send decode API_BASE_URL prompt
        (llm_provider st) (llm_model st) (temperature st) (max_tokens st)
        (chat_session_id st) (rag_enabled st) in
    let '(shown, st', e) := get_streaming_response stream_generator st in
    (chat_message (JStr "user") :: markdown (JStr prompt)
     :: chat_message (JStr "assistant") :: shown, st', e).
End Turn.
End ChatPage.

(** ** frontend/pages/0_Configuration.py *)

Module ConfigurationPage.
Import SessionState.

Inductive page_exn : Type :=
| AttributeError (name : string)
| ValueError
| KeyError
| StreamlitAPIException.

#[global] Instance page_ret : MRet (sum page_exn) := λ A a, inr a.

#[global] Instance page_bind : MBind (sum page_exn) :=
  λ A B k m, match m with inl e => inl e | inr a => k a end.

(** What the widgets hold from the user in one run of the script; [None]
    for a widget the user left alone. *)
Record user : Type := mkUser {
  provider_box : option string;
  model_box : option string;
  temperature_slider : option Q;
  max_tokens_slider : option Z;
  rag_checkbox : option bool
}.

(** [st.session_state.name] *)
Definition getattr (session_state : gmap string value) (name : string)
  : page_exn + value :=
  match session_state !! name with
  | Some v => inr v
  | None => inl (AttributeError name)
  end.

(** [options.index(v)] on a list of strings: the position of the first
    option equal to [v]; [None] stands for ValueError. *)
Definition index (options : list string) (v : value) : option nat :=
  match v with
  | VStr s => fst <$> list_find (λ o, o = s) options
  | _ => None
  end.

(** [d[key]] on a dict given by its items; [None] stands for KeyError. *)
Definition getitem {V} (d : list (string * V)) (key : string) : option V :=
  snd <$> (snd <$> list_find (λ kv, kv.1 = key) d).

(** [st.selectbox(label, options, index)]: the option the user picked when
    it is one of the options, else the option at [index]; [None] for an
    empty list of options; an index outside the options is refused. *)
Definition selectbox (picked : option string) (options : list string)
    (index : nat) : page_exn + option string :=
  match options with
  | [] => inr None
  | _ :: _ =>
      match options !! index with
      | None => inl StreamlitAPIException
      | Some default =>
          inr (Some (match picked with
                     | Some o => if decide (o ∈ options) then o else default
                     | None => default
                     end))
      end
  end.

(** [st.slider(label, min_value, max_value, value, step)] with float
    bounds: a [value] that is not a float is refused.  A [value] outside
    the bounds is not refused: the slider widens its bounds to hold it.
    The slider gives the position the user moved it to, when within these
    bounds, else [value]. *)
Definition slider_float (moved : option Q) (min_value max_value : Q)
    (v : value) : page_exn + Q :=
  match v with
  | VFloat q =>
      inr (match moved with
           | Some m =>
               if (Qle_bool min_value m || Qle_bool q m)
                  && (Qle_bool m max_value || Qle_bool m q)
               then m else q
           | None => q
           end)
  | _ => inl StreamlitAPIException
  end.

(** The same with integer bounds. *)
Definition slider_int (moved : option Z) (min_value max_value : Z)
    (v : value) : page_exn + Z :=
  match v with
  | VInt z =>
      inr (match moved with
           | Some m =>
               if bool_decide (Z.min min_value z ≤ m ≤ Z.max max_value z)
               then m else z
           | None => z
           end)
  | _ => inl StreamlitAPIException
  end.

(** [bool(v)] *)
Definition truth (v : value) : bool :=
  match v with
  | VStr s => bool_decide (s ≠ "")
  | VFloat q => negb (Qeq_bool q 0)
  | VInt z => bool_decide (z ≠ 0)
  | VBool b => b
  end.

(** [st.checkbox(label, value)] *)
Definition checkbox (ticked : option bool) (v : value) : bool :=
  match ticked with
  | Some b => b
  | None => truth v
  end.

(** The index of the model box: that of the display name whose model is
    the current one; 0 when [next] raises StopIteration. *)
Definition model_default_index (models : list (string * string))
    (current_model_value : value) : nat :=
  let model_display_names := models.*1 in
  let current_model_display_name :=
    match current_model_value with
    | VStr s => (λ found, found.2.1) <$> list_find (λ kv, kv.2 = s) models
    | _ => None
    end in
  match current_model_display_name with
  | Some name => default 0%nat (index model_display_names (VStr name))
  | None => 0%nat
  end.

(** One run of the page: the session state it leaves, or the exception
    that ends the script. *)
Definition page (u : user) (session_state : gmap string value)
  : page_exn + gmap string value :=
  let session_state := initialize_llm_config_session_state session_state in
  let llm_provider_options := LLM_MODELS.*1 in
  llm_provider ← getattr session_state "llm_provider";
  match index llm_provider_options llm_provider with
  | None => inl ValueError
  | Some i =>
      selected_llm_provider ←
        selectbox (provider_box u) llm_provider_options i;
      match selected_llm_provider ≫= λ p, pair p <$> getitem LLM_MODELS p with
      | None => inl KeyError
      | Some (selected_llm_provider, models) =>
          let session_state :=
            <["llm_provider" := VStr selected_llm_provider]> session_state in
          let model_display_names := models.*1 in
          current_model_value ← getattr session_state "llm_model";
          selected_model_display_name ←
            selectbox (model_box u) model_display_names
              (model_default_index models current_model_value);
          match selected_model_display_name ≫= getitem models with
          | None => inl KeyError
          | Some llm_model =>
              let session_state :=
                <["llm_model" := VStr llm_model]> session_state in
              temperature ← getattr session_state "temperature";
              temperature ←
                slider_float (temperature_slider u) 0 1 temperature;
              let session_state :=
                <["temperature" := VFloat temperature]> session_state in
              max_tokens ← getattr session_state "max_tokens";
              max_tokens ←
                slider_int (max_tokens_slider u) 100 4096 max_tokens;
              let session_state :=
                <["max_tokens" := VInt max_tokens]> session_state in
              rag_enabled ← getattr session_state "rag_enabled";
              let session_state :=
                <["rag_enabled" := VBool (checkbox (rag_checkbox u)
                                            rag_enabled)]> session_state in
              inr session_state
          end
      end
  end.
End ConfigurationPage.

(** ** Vocabulary of the properties *)

(** The row a commit writes for a validated message. *)
Definition stored (now : Z) (d : Session) (m : ChatMessageCreate.t)
  : ChatHistory.t :=
  ChatHistory.mk (next_id (ChatHistory.id <$> chat_history d))
    (ChatMessageCreate.session_id m) now (ChatMessageCreate.role m)
    (ChatMessageCreate.message m) (ChatMessageCreate.llm_provider m)
    (ChatMessageCreate.llm_model m).

(** The environment variable [get_llm] reads for each provider it
    supports. *)
Definition credential_variable (provider : string) : option string :=
  if decide (provider = "claude") then Some "ANTHROPIC_API_KEY"
  else if decide (provider = "openai") then Some "OPENAI_API_KEY"
  else if decide (provider = "gemini") then Some "GOOGLE_API_KEY"
  else None.

(** The chunks a provider stream carries and the way it ends. *)
Fixpoint stream_chunks (s : stream) : list string :=
  match s with
  | Chunk chunk rest => chunk :: stream_chunks rest
  | Exhausted | Failure _ => []
  end.

Fixpoint stream_failure (s : stream) : option exn :=
  match s with
  | Chunk _ rest => stream_failure rest
  | Exhausted => None
  | Failure e => Some e
  end.

(** What is left of the provider stream for a generator. *)
Definition pending (w : World) (g : generator) : option stream :=
  match state g with
  | Created =>
      Some (astream w (chain g) (GenerateRequest.question (request g)))
  | Suspended rest => Some rest
  | Finished => None
  end.

(** The chunks a history shows as sent. *)
Definition sent (h : list event) : list string :=
  omap (λ e, match e with Sent chunk => Some chunk | _ => None end) h.

(** A whole exchange with the handler of [/generate_stream]: the handler
    runs, then the body is streamed until it ends or the caller has gone. *)
Definition serve (w : World) (now : Z) (clock : nat → Z) (pulls : nat)
    (request : GenerateRequest.t)
  : Server → response (result delivery) * Server :=
  λ s,
    match generate_stream w now request s with
    | (Success g, s1) =>
        let '(r, s2) := stream_response w clock pulls g s1 in
        (Success r, s2)
    | (HTTPException code detail, s1) => (HTTPException code detail, s1)
    | (RequestValidationError, s1) => (RequestValidationError, s1)
    | (InternalServerError e, s1) => (InternalServerError e, s1)
    end.

(** The user and assistant messages of a request. *)
Definition user_message (r : GenerateRequest.t) : ChatMessageCreate.t :=
  ChatMessageCreate.mk (GenerateRequest.session_id r) "user"
    (GenerateRequest.question r) (GenerateRequest.llm_provider r)
    (GenerateRequest.llm_model r).

Definition assistant_message (r : GenerateRequest.t) (text : string)
  : ChatMessageCreate.t :=
  ChatMessageCreate.mk (GenerateRequest.session_id r) "assistant" text
    (GenerateRequest.llm_provider r) (GenerateRequest.llm_model r).

(** The exception of the driver for an integer it cannot bind. *)
Definition too_large : exn :=
  OverflowError "Python int too large to convert to SQLite INTEGER".

(** The rows of one session, as stored. *)
Definition session_rows (d : Session) (session_id : string)
  : list ChatHistory.t :=
  filter (λ m, ChatHistory.session_id m = session_id) (chat_history d).

(** The validation the scenarios take the client classes to make: the
    Gemini client refuses a temperature outside [0, 2] with a ValueError
    (a validation error of its model class); nothing else is refused. *)
Definition example_checks (kwargs : BaseChatModel) : option exn :=
  match client kwargs with
  | ChatGoogleGenerativeAI =>
      if Qle_bool 0 (temperature kwargs) && Qle_bool (temperature kwargs) 2
      then None
      else Some (ValueError "temperature must be in the range [0.0, 2.0]")
  | _ => None
  end.

(** The scenario of the specification: a stub provider that streams
    "Hel" then "lo!", and a request for it on an empty database. *)
Definition example_world : World :=
  mkWorld {[ "ANTHROPIC_API_KEY" := "sk-test" ]} example_checks
    (λ _ _, Chunk "Hel" (Chunk "lo!" Exhausted)).

Definition example_request : GenerateRequest.t :=
  GenerateRequest.mk "Hi" "claude" "claude-3-5-sonnet" (7 # 10) 1024 "s1"
    false.

Definition empty_server : Server := mkServer (mkSession [] []) [].

(** A model identifier listed in [LLM_MODELS] for some provider. *)
Definition listed_model (model_name : string) : Prop :=
  model_name ∈ (LLM_MODELS ≫= λ '(_, models), models.*2).


(** A table of [n] notes with ids and timestamps 1 to [n]. *)
Definition many_notes (n : nat) : list Note.t :=
  (λ i, Note.mk (Z.of_nat i) (Z.of_nat i) "title" "" "content" "" "")
    <$> seq 1 n.

(** Two messages of session "s1" stored newest first, and one of "s2". *)
Definition example_history : list ChatHistory.t :=
  [ChatHistory.mk 1 "s1" 20 "assistant" "Hello!" "claude" "m";
   ChatHistory.mk 2 "s2" 15 "user" "Hey" "claude" "m";
   ChatHistory.mk 3 "s1" 10 "user" "Hi" "claude" "m"].

(** A provider that fails after one chunk. *)
Definition failing_world : World :=
  mkWorld {[ "ANTHROPIC_API_KEY" := "sk-test" ]} example_checks
    (λ _ _, Chunk "Hel" (Failure (Exception "upstream closed"))).




(** A table of [n] messages of session "s1" with ids and timestamps 1 to
    [n]. *)
Definition many_messages (n : nat) : list ChatHistory.t :=
  (λ i, ChatHistory.mk (Z.of_nat i) "s1" (Z.of_nat i) "user" "Hi" "claude"
          "m")
    <$> seq 1 n.

(** A backend that cannot be reached. *)
Definition unreachable : Utils.http_request → Utils.attempt :=
  λ _, Utils.Raised (Utils.RequestError "connection refused").

(** A request with its [rag_enabled] flag replaced. *)
Definition set_rag_enabled (flag : bool) (r : GenerateRequest.t)
  : GenerateRequest.t :=
  GenerateRequest.mk (GenerateRequest.question r)
    (GenerateRequest.llm_provider r) (GenerateRequest.llm_model r)
    (GenerateRequest.temperature r) (GenerateRequest.max_tokens r)
    (GenerateRequest.session_id r) flag.

(** A generator whose request has its [rag_enabled] flag replaced. *)
Definition with_rag_enabled (flag : bool) (g : generator) : generator :=
  mkGenerator (set_rag_enabled flag (request g)) (chain g)
    (assistant_response_full g) (state g).

(** The client class [get_llm] builds for each provider it supports. *)
Definition client_for (provider : string) : option client_class :=
  if decide (provider = "claude") then Some ChatAnthropic
  else if decide (provider = "openai") then Some ChatOpenAI
  else if decide (provider = "gemini") then Some ChatGoogleGenerativeAI
  else None.

(** The chat rows of the first database are still there, in place, in the
    second. *)
Definition keeps_chat_rows (s s' : Server) : Prop :=
  chat_history (db s) `prefix_of` chat_history (db s').

(** A message [display_chat_messages] can draw: subscripting it with
    "role" and with "content" succeeds. *)
Definition displayable (m : Utils.json) : Prop :=
  ∃ role content,
    ChatPage.getitem m "role" = inr role ∧
    ChatPage.getitem m "content" = inr content.

(** A backend that streams "Hel" then "lo!" with status 200 and one whose
    body breaks after "Hel"; bytes are decoded one character per byte. *)
Definition example_decode (chunk : list Byte.byte) : option string :=
  Some (String.string_of_list_byte chunk).

Definition streaming_backend
  : string → GenerateRequest.t → StreamingCall.stream_attempt :=
  λ _ _,
    StreamingCall.Entered
      (StreamingCall.mkStreamed 200 (inl "")
         (StreamingCall.Bytes (String.list_byte_of_string "Hel")
            (StreamingCall.Bytes (String.list_byte_of_string "lo!")
               StreamingCall.EndOfBody))).

Definition breaking_backend
  : string → GenerateRequest.t → StreamingCall.stream_attempt :=
  λ _ _,
    StreamingCall.Entered
      (StreamingCall.mkStreamed 200 (inl "")
         (StreamingCall.Bytes (String.list_byte_of_string "Hel")
            (StreamingCall.Broken (Utils.RequestError "peer closed")))).

(** A session of the chat page with one earlier turn. *)
Definition example_state : ChatPage.session_state :=
  ChatPage.mkState
    [Utils.JDict [("role", Utils.JStr "user");
                  ("content", Utils.JStr "Hello")];
     Utils.JDict [("role", Utils.JStr "assistant");
                  ("content", Utils.JStr "Hi there")]]
    "Hi there" "s1" "claude" "claude-3-5-sonnet" (7 # 10) 1024 false.

(** A backend that answers every request with status 200 and the empty
    JSON dict. *)
Definition obliging : Utils.http_request → Utils.attempt :=
  λ _, Utils.Answered (Utils.mkResponse 200 "{}" (Some (Utils.JDict []))).

(** The user who leaves every widget of the configuration page alone. *)
Definition untouched : ConfigurationPage.user :=
  ConfigurationPage.mkUser None None None None None.

(** A session state holds settings the backend and the page accept: a
    provider of [LLM_MODELS] with one of its models, a temperature between
    0 and 1, a token budget between 100 and 4096, and a flag. *)
Definition configured (session_state : gmap string SessionState.value)
  : Prop :=
  ∃ p models name m t k b,
    session_state !! "llm_provider" = Some (SessionState.VStr p) ∧
    (p, models) ∈ LLM_MODELS ∧
    (name, m) ∈ models ∧
    session_state !! "llm_model" = Some (SessionState.VStr m) ∧
    session_state !! "temperature" = Some (SessionState.VFloat t) ∧
    (0 <= t)%Q ∧ (t <= 1)%Q ∧
    session_state !! "max_tokens" = Some (SessionState.VInt k) ∧
    100 ≤ k ≤ 4096 ∧
    session_state !! "rag_enabled" = Some (SessionState.VBool b).

(** * Properties *)

(** ** Sequencing *)

Section Monad.
Context {A B : Type}.

Lemma bind_ok (m : M A) (k : A → M B) s a s' :
  m s = (Ok a, s') → (m ≫= k) s = k a s'.
Proof. intros E. unfold mbind, M_bind, bind. by rewrite E. Qed.

Lemma bind_raise (m : M A) (k : A → M B) s e s' :
  m s = (Raise e, s') → (m ≫= k) s = (Raise e, s').
Proof. intros E. unfold mbind, M_bind, bind. by rewrite E. Qed.
End Monad.

(** Run one statement whose effect is known. *)
Ltac step_with lem := erewrite bind_ok by (apply lem || reflexivity).
Ltac step := erewrite bind_ok by reflexivity; cbv beta.

(** ** Strings *)

Lemma append_nil_r (s : string) : s +:+ "" = s.
Proof.
  induction s as [|c s IH]; [done|].
  change (String c s +:+ "") with (String c (s +:+ "")). by rewrite IH.
Qed.

Lemma append_assoc (s1 s2 s3 : string) :
  (s1 +:+ s2) +:+ s3 = s1 +:+ (s2 +:+ s3).
Proof.
  induction s1 as [|c s1 IH]; [done|].
  change (String c ((s1 +:+ s2) +:+ s3) = String c (s1 +:+ (s2 +:+ s3))).
  by rewrite IH.
Qed.

Lemma concat_cons chunk chunks :
  String.concat "" (chunk :: chunks) = chunk +:+ String.concat "" chunks.
Proof.
  destruct chunks as [|c cs]; simpl; [by rewrite append_nil_r | done].
Qed.

(** ** Histories and streams *)


Lemma sent_Sent chunks : sent (Sent <$> chunks) = chunks.
Proof. induction chunks as [|c cs IH]; [done|]. cbn. by f_equal. Qed.

Lemma stream_chunks_foldr chunks last :
  stream_chunks (foldr Chunk last chunks) = chunks ++ stream_chunks last.
Proof. induction chunks as [|c cs IH]; simpl; [done | by rewrite IH]. Qed.

Lemma stream_failure_foldr chunks last :
  stream_failure (foldr Chunk last chunks) = stream_failure last.
Proof. induction chunks as [|c cs IH]; simpl; done. Qed.

(** ** Writing a chat message *)

(** A validated message is always stored: the row is appended, with a
    fresh id and the time of the commit. *)
Lemma create_chat_message_run now m s :
  create_chat_message now m s =
  (Ok (stored now (db s) m),
   mkServer
     (mkSession (chat_history (db s) ++ [stored now (db s) m]) (notes (db s)))
     (history s ++ [Persisted (stored now (db s) m)])).
Proof. destruct m, s. reflexivity. Qed.

Lemma create_new_chat_message_run now message s :
  create_new_chat_message now message s =
  (Success (stored now (db s) message),
   mkServer
     (mkSession (chat_history (db s) ++ [stored now (db s) message])
        (notes (db s)))
     (history s ++ [Persisted (stored now (db s) message)])).
Proof.
  unfold create_new_chat_message, handler. by rewrite create_chat_message_run.
Qed.

(** ** The generator *)

Lemma pending_created w g :
  state g = Created →
  pending w g
  = Some (astream w (chain g) (GenerateRequest.question (request g))).
Proof. unfold pending. by intros ->. Qed.

Lemma anext_pending w now g rest :
  pending w g = Some rest → anext w now g = resume now g rest.
Proof.
  unfold pending, anext. destruct (state g); intros [= <-] || intros [=]; done.
Qed.

Lemma resume_chunk now g chunk rest s :
  resume now g (Chunk chunk rest) s =
  (Ok (Some chunk,
       mkGenerator (request g) (chain g) (assistant_response_full g +:+ chunk)
         (Suspended rest)), s).
Proof. done. Qed.

Lemma resume_exhausted now g s :
  let row :=
    stored now (db s)
      (assistant_message (request g) (assistant_response_full g)) in
  resume now g Exhausted s =
  (Ok (None,
       mkGenerator (request g) (chain g) (assistant_response_full g) Finished),
   mkServer (mkSession (chat_history (db s) ++ [row]) (notes (db s)))
     (history s ++ [Persisted row])).
Proof.
  intros row. unfold resume. step_with create_chat_message_run. done.
Qed.

Lemma resume_failure now g e s : resume now g (Failure e) s = (Raise e, s).
Proof. done. Qed.

(** One chunk relayed: the server resumes the generator, the chunk is
    appended to the accumulated text and sent. *)
Lemma stream_response_step w clock pulls g chunk rest s :
  pending w g = Some (Chunk chunk rest) →
  stream_response w clock (S pulls) g s =
  stream_response w (λ i, clock (S i)) pulls
    (mkGenerator (request g) (chain g) (assistant_response_full g +:+ chunk)
       (Suspended rest))
    (mkServer (db s) (history s ++ [Sent chunk])).
Proof.
  intros Hp. cbn [stream_response].
  erewrite bind_ok;
    last by rewrite (anext_pending _ _ _ _ Hp); apply resume_chunk.
  cbv beta iota. by step.
Qed.

(** The caller stays until the end and the provider stream ends without a
    failure: every chunk is sent, in order, and then one assistant row is
    written whose text is the accumulated text followed by the chunks. *)
Lemma stream_response_complete w rest : ∀ g clock pulls s,
  pending w g = Some rest →
  stream_failure rest = None →
  (length (stream_chunks rest) < pulls)%nat →
  let row :=
    stored (clock (length (stream_chunks rest))) (db s)
      (assistant_message (request g)
         (assistant_response_full g
          +:+ String.concat "" (stream_chunks rest))) in
  stream_response w clock pulls g s =
  (Ok Complete,
   mkServer (mkSession (chat_history (db s) ++ [row]) (notes (db s)))
     (history s ++ (Sent <$> stream_chunks rest) ++ [Persisted row])).
Proof.
  induction rest as [|chunk rest IH|e]; intros g clock pulls s Hp Hf Hlen;
    cbn [stream_chunks stream_failure length fmap list_fmap] in *.
  - destruct pulls as [|pulls]; [lia|]. cbn [stream_response].
    erewrite bind_ok;
      last by rewrite (anext_pending _ _ _ _ Hp); apply resume_exhausted.
    change (String.concat "" []) with "". by rewrite append_nil_r.
  - destruct pulls as [|pulls]; [lia|].
    rewrite (stream_response_step _ _ _ _ _ _ _ Hp).
    rewrite IH; [|done|done|lia].
    cbn [db history request assistant_response_full].
    by rewrite concat_cons, append_assoc, <- (assoc_L (++)).
  - done.
Qed.

(** The provider stream fails: the chunks before the failure are sent, the
    exception leaves the generator, and the database is not touched. *)
Lemma stream_response_failed w rest : ∀ g clock pulls s e,
  pending w g = Some rest →
  stream_failure rest = Some e →
  (length (stream_chunks rest) < pulls)%nat →
  stream_response w clock pulls g s =
  (Raise e, mkServer (db s) (history s ++ (Sent <$> stream_chunks rest))).
Proof.
  induction rest as [|chunk rest IH|e'];
    intros g clock pulls s e Hp Hf Hlen;
    cbn [stream_chunks stream_failure length fmap list_fmap] in *.
  - done.
  - destruct pulls as [|pulls]; [lia|].
    rewrite (stream_response_step _ _ _ _ _ _ _ Hp).
    rewrite (IH _ _ _ _ e); [|done|done|lia]. cbn [db history].
    by rewrite <- (assoc_L (++)).
  - destruct pulls as [|pulls]; [lia|]. simplify_eq. cbn [stream_response].
    erewrite bind_raise;
      last by rewrite (anext_pending _ _ _ _ Hp); apply resume_failure.
    rewrite app_nil_r. by destruct s.
Qed.

(** The caller goes away after [pulls] chunks: these were sent, and the
    database is not touched. *)
Lemma stream_response_disconnected w rest : ∀ g clock pulls s,
  pending w g = Some rest →
  (pulls ≤ length (stream_chunks rest))%nat →
  stream_response w clock pulls g s =
  (Ok Disconnected,
   mkServer (db s) (history s ++ (Sent <$> take pulls (stream_chunks rest)))).
Proof.
  induction rest as [|chunk rest IH|e']; intros g clock pulls s Hp Hlen;
    cbn [stream_chunks length] in *.
  - assert (pulls = 0%nat) as -> by lia. cbn. rewrite app_nil_r. by destruct s.
  - destruct pulls as [|pulls].
    + cbn. rewrite app_nil_r. by destruct s.
    + rewrite (stream_response_step _ _ _ _ _ _ _ Hp).
      rewrite IH; [|done|lia]. cbn [db history take fmap list_fmap].
      by rewrite <- (assoc_L (++)).
  - assert (pulls = 0%nat) as -> by lia. cbn. rewrite app_nil_r. by destruct s.
Qed.

(** Resuming the generator only ever appends: rows to [chat_history],
    events to the history. *)
Lemma anext_extends w now g s r s' :
  anext w now g s = (r, s') →
  ∃ rows later,
    chat_history (db s') = chat_history (db s) ++ rows ∧
    notes (db s') = notes (db s) ∧
    history s' = history s ++ later.
Proof.
  unfold anext.
  assert (∀ st, resume now g st s = (r, s') →
    ∃ rows later,
      chat_history (db s') = chat_history (db s) ++ rows ∧
      notes (db s') = notes (db s) ∧
      history s' = history s ++ later) as Hres.
  { intros [|chunk rest|e].
    - rewrite resume_exhausted. intros [= <- <-]. by eexists _, _.
    - rewrite resume_chunk. intros [= <- <-]. exists [], [].
      by rewrite !app_nil_r.
    - rewrite resume_failure. intros [= <- <-]. exists [], [].
      by rewrite !app_nil_r. }
  destruct (state g); [apply Hres | apply Hres |].
  intros [= <- <-]. exists [], []. by rewrite !app_nil_r.
Qed.

Lemma stream_response_extends w pulls : ∀ clock g s r s',
  stream_response w clock pulls g s = (r, s') →
  ∃ rows later,
    chat_history (db s') = chat_history (db s) ++ rows ∧
    notes (db s') = notes (db s) ∧
    history s' = history s ++ later.
Proof.
  induction pulls as [|pulls IH]; intros clock g s r s'.
  - intros [= <- <-]. exists [], []. by rewrite !app_nil_r.
  - cbn [stream_response]. unfold mbind, M_bind, bind.
    destruct (anext w (clock 0%nat) g s) as [[[[chunk|] g']|e] sa] eqn:Ha;
      destruct (anext_extends _ _ _ _ _ _ Ha) as (rows & later & Hc & Hn & Hh).
    + unfold tell. intros Hrun.
      apply IH in Hrun as (rows' & later' & Hc' & Hn' & Hh').
      cbn [db history] in *.
      exists (rows ++ rows'), (later ++ [Sent chunk] ++ later').
      by rewrite Hc', Hn', Hh', Hc, Hh, <- !(assoc_L (++)).
    + intros [= <- <-]. by exists rows, later.
    + intros [= <- <-]. by exists rows, later.
Qed.

(** ** The handler *)

(** The [try] block: the user message is committed, then the adapter is
    entered once; its result decides between a generator and an
    exception. *)
Lemma generate_stream_try_run w now req s :
  let user_row := stored now (db s) (user_message req) in
  let s1 :=
    mkServer (mkSession (chat_history (db s) ++ [user_row]) (notes (db s)))
      (history s ++ [Persisted user_row;
                     AdapterCall (GenerateRequest.llm_provider req)
                       (GenerateRequest.llm_model req)]) in
  generate_stream_try w now req s =
  match get_llm (environ w) (init_error w) (GenerateRequest.llm_provider req)
          (GenerateRequest.llm_model req) (GenerateRequest.temperature req)
          (GenerateRequest.max_tokens req) true with
  | Ok llm =>
      (Ok (mkGenerator req (get_llm_chain llm false None) "" Created), s1)
  | Raise e => (Raise e, s1)
  end.
Proof.
  intros user_row s1. unfold generate_stream_try.
  step_with create_chat_message_run. step.
  unfold mbind, M_bind, bind, lift, tell. cbn [db history].
  rewrite <- (assoc_L (++)). by destruct get_llm.
Qed.

Lemma generate_stream_success w now req s g s1 :
  generate_stream w now req s = (Success g, s1) →
  let user_row := stored now (db s) (user_message req) in
  request g = req ∧ assistant_response_full g = "" ∧ state g = Created ∧
  db s1 = mkSession (chat_history (db s) ++ [user_row]) (notes (db s)) ∧
  history s1 = history s ++ [Persisted user_row;
                             AdapterCall (GenerateRequest.llm_provider req)
                               (GenerateRequest.llm_model req)].
Proof.
  unfold generate_stream. rewrite generate_stream_try_run.
  destruct get_llm as [llm|e]; [|destruct (is_ValueError e)];
    intros [= <- <-]; done.
Qed.

(** ** The provider adapter *)





(** ** The streaming relay *)

(** C1.  A generation whose provider stream is exhausted without a failure,
    with the caller connected until the end: every chunk is relayed in
    arrival order, and afterwards exactly one assistant row is written (the
    table is the old one, the user row, the assistant row).  Its text is the
    concatenation of the relayed chunks, and its session, provider and model
    are those of the request. *)
Theorem completed_generation_persists_concatenation
    w now clock pulls req s g s1 chunks :
  generate_stream w now req s = (Success g, s1) →
  astream w (chain g) (GenerateRequest.question req)
  = foldr Chunk Exhausted chunks →
  (length chunks < pulls)%nat →
  ∃ user_row assistant_row s2,
    stream_response w clock pulls g s1 = (Ok Complete, s2) ∧
    history s2 = history s1 ++ (Sent <$> chunks) ++ [Persisted assistant_row] ∧
    chat_history (db s2) = chat_history (db s) ++ [user_row; assistant_row] ∧
    ChatHistory.role user_row = "user" ∧
    ChatHistory.role assistant_row = "assistant" ∧
    ChatHistory.message assistant_row = String.concat "" chunks ∧
    ChatHistory.session_id assistant_row = GenerateRequest.session_id req ∧
    ChatHistory.llm_provider assistant_row
    = GenerateRequest.llm_provider req ∧
    ChatHistory.llm_model assistant_row = GenerateRequest.llm_model req.
Proof.
  intros Hgen Hstream Hpulls.
  destruct (generate_stream_success _ _ _ _ _ _ Hgen)
    as (Hreq & Hacc & Hst & Hdb & Hh).
  pose proof (pending_created w g Hst) as Hp. rewrite Hreq, Hstream in Hp.
  pose proof (stream_response_complete w _ g clock pulls s1 Hp) as Hrun.
  rewrite stream_failure_foldr, stream_chunks_foldr in Hrun.
  cbn [stream_chunks stream_failure] in Hrun. rewrite app_nil_r in Hrun.
  specialize (Hrun eq_refl Hpulls). cbn zeta in Hrun.
  rewrite Hacc, Hreq in Hrun.
  eexists _, _, _. split; [exact Hrun|]. cbn [history db chat_history].
  split; [done|]. rewrite Hdb. cbn [chat_history].
  rewrite <- (assoc_L (++)). repeat split; done.
Qed.

(** The scenario of the specification: "Hel" then "lo!" are relayed and
    "Hello!" is stored. *)
Lemma completed_generation_example :
  ∃ g s1,
    generate_stream example_world 0 example_request empty_server
    = (Success g, s1) ∧
    ∃ user_row assistant_row s2,
      stream_response example_world (λ _, 5) 3 g s1 = (Ok Complete, s2) ∧
      history s2
      = history s1 ++ (Sent <$> ["Hel"; "lo!"]) ++ [Persisted assistant_row] ∧
      chat_history (db s2)
      = chat_history (db empty_server) ++ [user_row; assistant_row] ∧
      ChatHistory.role user_row = "user" ∧
      ChatHistory.role assistant_row = "assistant" ∧
      ChatHistory.message assistant_row = String.concat "" ["Hel"; "lo!"] ∧
      ChatHistory.session_id assistant_row
      = GenerateRequest.session_id example_request ∧
      ChatHistory.llm_provider assistant_row
      = GenerateRequest.llm_provider example_request ∧
      ChatHistory.llm_model assistant_row
      = GenerateRequest.llm_model example_request.
Proof.
  eexists _, _. split; [reflexivity|].
  apply (completed_generation_persists_concatenation
           example_world 0 (λ _, 5) 3%nat example_request empty_server);
    [reflexivity | reflexivity | simpl; lia].
Defined.


(** C3.  A generation whose provider stream fails after the chunks
    [chunks]: these chunks are sent, then the exception reaches the
    caller; the database is the one the handler left, in which the user
    row is the only new row. *)
Theorem failed_generation_persists_no_assistant
    w now clock pulls req s g s1 chunks e :
  generate_stream w now req s = (Success g, s1) →
  astream w (chain g) (GenerateRequest.question req)
  = foldr Chunk (Failure e) chunks →
  (length chunks < pulls)%nat →
  ∃ user_row,
    stream_response w clock pulls g s1 =
      (Raise e, mkServer (db s1) (history s1 ++ (Sent <$> chunks))) ∧
    chat_history (db s1) = chat_history (db s) ++ [user_row] ∧
    notes (db s1) = notes (db s) ∧
    ChatHistory.role user_row = "user" ∧
    ChatHistory.message user_row = GenerateRequest.question req ∧
    ChatHistory.session_id user_row = GenerateRequest.session_id req.
Proof.
  intros Hgen Hstream Hpulls.
  destruct (generate_stream_success _ _ _ _ _ _ Hgen)
    as (Hreq & Hacc & Hst & Hdb & Hh).
  pose proof (pending_created w g Hst) as Hp. rewrite Hreq, Hstream in Hp.
  pose proof (stream_response_failed w _ g clock pulls s1 e Hp) as Hrun.
  rewrite stream_failure_foldr, stream_chunks_foldr in Hrun.
  cbn [stream_chunks stream_failure] in Hrun. rewrite app_nil_r in Hrun.
  specialize (Hrun eq_refl Hpulls).
  eexists. split; [exact Hrun|]. by rewrite Hdb.
Qed.

(** A provider that fails after "Hel": the chunk is relayed, the
    exception follows, only the user row is stored. *)
Lemma failed_generation_example :
  ∃ g s1,
    generate_stream failing_world 0 example_request empty_server
    = (Success g, s1) ∧
    ∃ user_row,
      stream_response failing_world (λ _, 5) 2 g s1 =
        (Raise (Exception "upstream closed"),
         mkServer (db s1) (history s1 ++ (Sent <$> ["Hel"]))) ∧
      chat_history (db s1) = chat_history (db empty_server) ++ [user_row] ∧
      notes (db s1) = notes (db empty_server) ∧
      ChatHistory.role user_row = "user" ∧
      ChatHistory.message user_row = GenerateRequest.question example_request ∧
      ChatHistory.session_id user_row
      = GenerateRequest.session_id example_request.
Proof.
  eexists _, _. split; [reflexivity|].
  apply (failed_generation_persists_no_assistant
           failing_world 0 (λ _, 5) 2%nat example_request empty_server);
    [reflexivity | reflexivity | simpl; lia].
Defined.

(** A caller that goes away before the stream ends: what was pulled until
    then was sent, and no assistant row is written. *)
Lemma abandoned_generation_persists_no_assistant
    w now clock pulls req s g s1 :
  generate_stream w now req s = (Success g, s1) →
  (pulls ≤ length (stream_chunks
                     (astream w (chain g) (GenerateRequest.question req))))%nat →
  stream_response w clock pulls g s1 =
  (Ok Disconnected,
   mkServer (db s1)
     (history s1 ++
      (Sent <$> take pulls
                  (stream_chunks
                     (astream w (chain g) (GenerateRequest.question req)))))).
Proof.
  intros Hgen Hpulls.
  destruct (generate_stream_success _ _ _ _ _ _ Hgen)
    as (Hreq & Hacc & Hst & Hdb & Hh).
  pose proof (pending_created w g Hst) as Hp. rewrite Hreq in Hp.
  by apply stream_response_disconnected.
Qed.

(** The caller of the scenario goes away after the first chunk: "Hel" was
    sent, the database is the one the handler left. *)
Lemma abandoned_generation_example :
  ∃ g s1,
    generate_stream example_world 0 example_request empty_server
    = (Success g, s1) ∧
    stream_response example_world (λ _, 5) 1 g s1 =
    (Ok Disconnected,
     mkServer (db s1)
       (history s1 ++
        (Sent <$> take 1
                    (stream_chunks
                       (astream example_world (chain g)
                          (GenerateRequest.question example_request)))))).
Proof.
  eexists _, _. split; [reflexivity|].
  apply (abandoned_generation_persists_no_assistant
           example_world 0 (λ _, 5) 1%nat example_request empty_server);
    [reflexivity | simpl; lia].
Defined.

(** ** Request validation *)




(** ** Adapter errors *)




(** ** Listings *)

Section Ordering.
Context {A : Type} (key : A → Z).

Global Instance asc_total : Total (asc key).
Proof. intros a b. unfold asc. lia. Qed.

Global Instance asc_trans : Transitive (asc key).
Proof. intros a b c. unfold asc. lia. Qed.

Global Instance desc_total : Total (desc key).
Proof. intros a b. unfold desc. lia. Qed.

Global Instance desc_trans : Transitive (desc key).
Proof. intros a b c. unfold desc. lia. Qed.
End Ordering.

Section Queries.
Context {A : Type} (R : relation A) `{!RelDecision R}.

Lemma StronglySorted_take n (rows : list A) :
  StronglySorted R rows → StronglySorted R (take n rows).
Proof. rewrite <- (take_drop n rows) at 1. apply StronglySorted_app_1_l. Qed.

Lemma StronglySorted_drop n (rows : list A) :
  StronglySorted R rows → StronglySorted R (drop n rows).
Proof. rewrite <- (take_drop n rows) at 1. apply StronglySorted_app_1_r. Qed.

Lemma StronglySorted_offset skip (rows : list A) :
  StronglySorted R rows → StronglySorted R (offset skip rows).
Proof. apply StronglySorted_drop. Qed.

Lemma StronglySorted_limit n (rows : list A) :
  StronglySorted R rows → StronglySorted R (limit n rows).
Proof. unfold limit. case_decide; [done|]. apply StronglySorted_take. Qed.

Lemma offset_subseteq skip (rows : list A) : offset skip rows ⊆ rows.
Proof. apply subseteq_drop. Qed.

Lemma limit_subseteq n (rows : list A) : limit n rows ⊆ rows.
Proof. unfold limit. case_decide; [done|]. apply subseteq_take. Qed.

Lemma limit_nonneg n (rows : list A) :
  0 ≤ n → limit n rows = take (Z.to_nat n) rows.
Proof. intros Hn. unfold limit. by rewrite decide_False by lia. Qed.

Lemma length_limit n (rows : list A) :
  0 ≤ n → Z.of_nat (length (limit n rows)) ≤ n.
Proof. intros Hn. rewrite limit_nonneg, length_take by done. lia. Qed.

Lemma insert_by_perm x (rows : list A) : insert_by R x rows ≡ₚ x :: rows.
Proof.
  induction rows as [|y rows IH]; [done|]. cbn [insert_by].
  case_decide; [done|]. rewrite IH. constructor.
Qed.

Lemma insert_by_sorted `{!Transitive R, !Total R} x (rows : list A) :
  StronglySorted R rows → StronglySorted R (insert_by R x rows).
Proof.
  induction 1 as [|y rows Hs IH Hall]; cbn [insert_by].
  - repeat constructor.
  - case_decide as Hxy.
    + constructor; [by constructor|]. constructor; [done|].
      eapply Forall_impl; [exact Hall|]. intros z Hyz. by etrans.
    + constructor; [done|]. rewrite insert_by_perm. constructor; [|done].
      by destruct (total R x y).
Qed.

Lemma order_by_sorted `{!Transitive R, !Total R} (rows : list A) :
  StronglySorted R (order_by R rows).
Proof.
  induction rows as [|x rows IH]; [constructor|].
  by apply insert_by_sorted.
Qed.

Lemma order_by_perm (rows : list A) : order_by R rows ≡ₚ rows.
Proof.
  induction rows as [|x rows IH]; [done|].
  cbn [order_by foldr]. rewrite insert_by_perm.
  change (foldr (insert_by R) [] rows) with (order_by R rows).
  by constructor.
Qed.

(** The sort is stable: the rows that [R] cannot tell apart keep the order
    they have in the table. *)
Lemma filter_insert_by (P : A → Prop) `{!∀ x, Decision (P x)} x rows :
  (∀ y, P x → P y → R x y) →
  filter P (insert_by R x rows) = filter P (x :: rows).
Proof.
  intros Htie. induction rows as [|y rows IH]; [done|]. cbn [insert_by].
  case_decide as Hxy; [done|].
  rewrite filter_cons, IH, !filter_cons.
  destruct (decide (P y)) as [Hy|Hy]; [|done].
  destruct (decide (P x)) as [Hx|Hx]; [|done].
  by destruct Hxy; apply Htie.
Qed.

Lemma order_by_stable (P : A → Prop) `{!∀ x, Decision (P x)} rows :
  (∀ x y, P x → P y → R x y) →
  filter P (order_by R rows) = filter P rows.
Proof.
  intros Htie. induction rows as [|x rows IH]; [done|].
  cbn [order_by foldr]. rewrite filter_insert_by by (intros y; apply Htie).
  change (foldr (insert_by R) [] rows) with (order_by R rows).
  by rewrite !filter_cons, IH.
Qed.
End Queries.

(** ** Binding integers *)

Lemma bind_integer_Ok z : int64 z → bind_integer z = Ok z.
Proof. intros Hz. unfold bind_integer. by rewrite decide_True. Qed.

Lemma bind_integer_Raise z : ¬ int64 z → bind_integer z = Raise too_large.
Proof. intros Hz. unfold bind_integer. by rewrite decide_False. Qed.

Lemma get_chat_history_run d session_id skip limit_ :
  int64 skip → int64 limit_ →
  get_chat_history d session_id skip limit_
  = Ok (limit limit_
          (offset skip
             (order_by (asc ChatHistory.timestamp)
                (session_rows d session_id)))).
Proof.
  intros Hs Hl. unfold get_chat_history.
  by rewrite !bind_integer_Ok by done.
Qed.

Lemma get_chat_history_Ok d session_id skip limit_ rows :
  get_chat_history d session_id skip limit_ = Ok rows →
  int64 skip ∧ int64 limit_ ∧
  rows = limit limit_
           (offset skip
              (order_by (asc ChatHistory.timestamp)
                 (session_rows d session_id))).
Proof.
  unfold get_chat_history, bind_integer.
  repeat case_decide; intros [= <-]; done.
Qed.


Lemma get_notes_run d skip limit_ :
  int64 skip → int64 limit_ →
  get_notes d skip limit_
  = Ok (limit limit_
          (offset skip (order_by (desc Note.timestamp) (notes d)))).
Proof.
  intros Hs Hl. unfold get_notes. by rewrite !bind_integer_Ok by done.
Qed.

Lemma get_notes_Ok d skip limit_ rows :
  get_notes d skip limit_ = Ok rows →
  int64 skip ∧ int64 limit_ ∧
  rows = limit limit_
           (offset skip (order_by (desc Note.timestamp) (notes d))).
Proof.
  unfold get_notes, bind_integer. repeat case_decide; intros [= <-]; done.
Qed.


(** For any [skip] and [limit] a chat listing that is returned is in
    ascending order of timestamp and made of stored rows of the session. *)
Lemma get_chat_history_sorted d session_id skip limit_ rows :
  get_chat_history d session_id skip limit_ = Ok rows →
  StronglySorted (asc ChatHistory.timestamp) rows.
Proof.
  intros (_ & _ & ->)%get_chat_history_Ok.
  apply StronglySorted_limit, StronglySorted_offset, order_by_sorted; apply _.
Qed.

Lemma get_chat_history_elem_of d session_id skip limit_ rows m :
  get_chat_history d session_id skip limit_ = Ok rows →
  m ∈ rows →
  m ∈ chat_history d ∧ ChatHistory.session_id m = session_id.
Proof.
  intros (_ & _ & ->)%get_chat_history_Ok Hm.
  apply limit_subseteq, offset_subseteq in Hm.
  rewrite order_by_perm in Hm. apply list_elem_of_filter in Hm. tauto.
Qed.

(** For any [skip] and [limit] the driver can bind, the note listing is
    returned; a note listing that is returned is in descending order of
    timestamp. *)
Lemma get_notes_sorted d skip limit_ :
  (int64 skip → int64 limit_ → ∃ rows, get_notes d skip limit_ = Ok rows) ∧
  ∀ rows,
    get_notes d skip limit_ = Ok rows →
    StronglySorted (desc Note.timestamp) rows.
Proof.
  split.
  - intros Hs Hl. rewrite get_notes_run by done. by eexists.
  - intros rows (_ & _ & ->)%get_notes_Ok.
    apply StronglySorted_limit, StronglySorted_offset, order_by_sorted;
      apply _.
Qed.

Lemma get_chat_history_defaults d session_id :
  get_chat_history d session_id default_skip default_limit =
  Ok (take 100
        (order_by (asc ChatHistory.timestamp) (session_rows d session_id))).
Proof. by rewrite get_chat_history_run. Qed.

Lemma get_session_chat_history_run session_id s :
  get_session_chat_history session_id s
  = (Success
       (take 100
          (order_by (asc ChatHistory.timestamp)
             (session_rows (db s) session_id))), s).
Proof.
  unfold get_session_chat_history, handler.
  unfold mbind, M_bind, bind, get_db, lift.
  by rewrite get_chat_history_defaults.
Qed.

(** C6 fails on the code for a session with more than 100 messages: with
    101 messages stored, the endpoint answers with the 100 oldest, and the
    newest message of the session is not listed. *)
Lemma chat_history_listing_truncated :
  length (session_rows (mkSession (many_messages 101) []) "s1") = 101%nat ∧
  ∃ rows,
    get_session_chat_history "s1"
      (mkServer (mkSession (many_messages 101) []) [])
    = (Success rows, mkServer (mkSession (many_messages 101) []) []) ∧
    ChatHistory.id <$> rows = Z.of_nat <$> seq 1 100.
Proof.
  split; [vm_compute; reflexivity|].
  eexists. split; [apply get_session_chat_history_run|].
  vm_compute. reflexivity.
Qed.

(** C6, as the code has it.  [GET /chat_history/{session_id}] always
    answers with a list, never with an error: the first 100 rows of the
    session in ascending order of timestamp, rows with the same timestamp
    in the order in which they were stored.  The list holds only stored
    rows of that session; all of them when the session has at most 100,
    100 of them otherwise; it is empty when the session has none. *)
Theorem chat_history_listing_ordered s session_id :
  let ordered :=
    order_by (asc ChatHistory.timestamp) (session_rows (db s) session_id) in
  get_session_chat_history session_id s = (Success (take 100 ordered), s) ∧
  StronglySorted (asc ChatHistory.timestamp) (take 100 ordered) ∧
  (∀ t,
     filter (λ m, ChatHistory.timestamp m = t) ordered
     = filter (λ m, ChatHistory.timestamp m = t)
         (session_rows (db s) session_id)) ∧
  (∀ m, m ∈ take 100 ordered →
        m ∈ chat_history (db s) ∧ ChatHistory.session_id m = session_id) ∧
  ((length (session_rows (db s) session_id) ≤ 100)%nat →
   take 100 ordered ≡ₚ session_rows (db s) session_id) ∧
  ((100 < length (session_rows (db s) session_id))%nat →
   length (take 100 ordered) = 100%nat) ∧
  (session_rows (db s) session_id = [] → take 100 ordered = []).
Proof.
  intros ordered. split; [apply get_session_chat_history_run|].
  split; [apply StronglySorted_take, order_by_sorted; apply _|].
  split.
  { intros t. apply order_by_stable. intros x y Hx Hy. unfold asc. lia. }
  split.
  { intros m Hm. apply subseteq_take in Hm. subst ordered.
    rewrite order_by_perm in Hm. apply list_elem_of_filter in Hm. tauto. }
  split.
  { intros Hlen. rewrite take_ge; [apply order_by_perm|].
    subst ordered. by rewrite order_by_perm. }
  split.
  { intros Hlen. rewrite length_take. subst ordered. rewrite order_by_perm.
    lia. }
  subst ordered. by intros ->.
Qed.

(** A session whose two messages were stored newest first is listed
    oldest first; a session without messages gives the empty list. *)
Lemma chat_history_listing_example :
  get_session_chat_history "s1" (mkServer (mkSession example_history []) [])
  = (Success [ChatHistory.mk 3 "s1" 10 "user" "Hi" "claude" "m";
              ChatHistory.mk 1 "s1" 20 "assistant" "Hello!" "claude" "m"],
     mkServer (mkSession example_history []) []) ∧
  get_session_chat_history "s9" (mkServer (mkSession example_history []) [])
  = (Success [], mkServer (mkSession example_history []) []).
Proof.
  split.
  - exact (proj1 (chat_history_listing_ordered
                    (mkServer (mkSession example_history []) []) "s1")).
  - exact (proj1 (chat_history_listing_ordered
                    (mkServer (mkSession example_history []) []) "s9")).
Defined.




(** ** Notes *)

(** C7, where the code departs from it.  [create_note] sets the title and
    the content only; [url], [comments] and [tags] are declared
    [nullable=False] and have no default, so the INSERT is refused for
    every title and content: the call raises, the handler is left by the
    exception (status 500), and the database is unchanged. *)
Theorem create_note_is_refused now note s :
  create_note now note s
  = (Raise (IntegrityError "NOT NULL constraint failed: notes.url"), s) ∧
  create_new_note now note s
  = (InternalServerError
       (IntegrityError "NOT NULL constraint failed: notes.url"), s) ∧
  status_code (create_new_note now note s).1 = 500.
Proof. destruct note, s. repeat split; reflexivity. Qed.

Lemma first_filter_Some {A} (P : A → Prop) `{!∀ x, Decision (P x)} rows n :
  first (filter P rows) = Some n → n ∈ rows ∧ P n.
Proof.
  intros Hhead. apply head_Some_elem_of in Hhead.
  by apply list_elem_of_filter in Hhead as [? ?].
Qed.

Lemma first_filter_update (n' : Note.t) rows :
  is_Some (first (filter (λ r, Note.id r = Note.id n') rows)) →
  first (filter (λ r, Note.id r = Note.id n') (flush_update n' rows))
  = Some n'.
Proof.
  unfold flush_update, first.
  induction rows as [|r rows IH]; [by intros [? [=]]|].
  rewrite fmap_cons, !filter_cons.
  destruct (decide (Note.id r = Note.id n')) as [Hr|Hr].
  - by rewrite decide_True.
  - by rewrite decide_False.
Qed.

Lemma first_filter_delete (n : Note.t) rows :
  first (filter (λ r, Note.id r = Note.id n) (flush_delete n rows)) = None.
Proof.
  unfold flush_delete, first.
  induction rows as [|r rows IH]; [done|].
  rewrite filter_cons.
  destruct (decide (Note.id r ≠ Note.id n)) as [Hr|Hr]; [|done].
  by rewrite filter_cons, decide_False.
Qed.

Lemma get_note_run d note_id :
  int64 note_id →
  get_note d note_id = Ok (first (filter (λ n, Note.id n = note_id) (notes d))).
Proof. intros Hid. unfold get_note. by rewrite bind_integer_Ok. Qed.

Lemma get_note_Ok d note_id o :
  get_note d note_id = Ok o →
  int64 note_id ∧ first (filter (λ n, Note.id n = note_id) (notes d)) = o.
Proof.
  unfold get_note, bind_integer. case_decide; intros [= <-]; done.
Qed.

Lemma get_note_overflow d note_id :
  ¬ int64 note_id → get_note d note_id = Raise too_large.
Proof. intros Hid. unfold get_note. by rewrite bind_integer_Raise. Qed.

Lemma update_note_run note_id note s :
  update_note note_id note s =
  match get_note (db s) note_id with
  | Ok (Some db_note) =>
      let db_note :=
        foldl (λ n '(var, value), setattr n var value) db_note
          (NoteBase.dict note) in
      (Ok (Some db_note),
       mkServer
         (mkSession (chat_history (db s))
            (flush_update db_note (notes (db s))))
         (history s))
  | Ok None => (Ok None, s)
  | Raise e => (Raise e, s)
  end.
Proof.
  unfold update_note, get_note, mbind, M_bind, bind, get_db, lift.
  destruct (bind_integer note_id); [|done]. by destruct (first _).
Qed.

Lemma delete_note_run note_id s :
  delete_note note_id s =
  match get_note (db s) note_id with
  | Ok (Some db_note) =>
      (Ok (Some db_note),
       mkServer
         (mkSession (chat_history (db s))
            (flush_delete db_note (notes (db s))))
         (history s))
  | Ok None => (Ok None, s)
  | Raise e => (Raise e, s)
  end.
Proof.
  unfold delete_note, get_note, mbind, M_bind, bind, get_db, lift.
  destruct (bind_integer note_id); [|done]. by destruct (first _).
Qed.

Lemma read_note_run note_id s :
  read_note note_id s =
  match get_note (db s) note_id with
  | Ok (Some n) => (Success n, s)
  | Ok None => (HTTPException 404 "Note not found", s)
  | Raise e => (InternalServerError e, s)
  end.
Proof.
  unfold read_note, or_404, mbind, M_bind, bind, get_db, lift.
  by destruct (get_note _ _) as [[]|].
Qed.



(** [update_note] and [delete_note] on an id that is not stored change
    nothing, and the handlers answer 404. *)
Lemma update_note_unknown note_id note s :
  get_note (db s) note_id = Ok None →
  update_existing_note note_id note s
  = (HTTPException 404 "Note not found", s).
Proof.
  intros Hget. unfold update_existing_note, or_404.
  by rewrite update_note_run, Hget.
Qed.

Lemma delete_note_unknown note_id s :
  get_note (db s) note_id = Ok None →
  delete_existing_note note_id s = (HTTPException 404 "Note not found", s).
Proof.
  intros Hget. unfold delete_existing_note, or_404.
  by rewrite delete_note_run, Hget.
Qed.

(** [delete_note] then [get_note], for a note that is stored: the note is
    gone and [read_note] answers 404. *)
Lemma delete_note_then_get note_id s n :
  get_note (db s) note_id = Ok (Some n) →
  ∃ s',
    delete_note note_id s = (Ok (Some n), s') ∧
    get_note (db s') note_id = Ok None ∧
    read_note note_id s' = (HTTPException 404 "Note not found", s').
Proof.
  intros Hget. rewrite delete_note_run, Hget.
  apply get_note_Ok in Hget as [Hid64 Hget].
  destruct (first_filter_Some _ _ _ Hget) as [_ Hid]. subst note_id.
  eexists. split; [reflexivity|]. cbn [db notes].
  assert (get_note
            (mkSession (chat_history (db s)) (flush_delete n (notes (db s))))
            (Note.id n) = Ok None) as Hgone.
  { rewrite get_note_run by done. cbn [notes]. f_equal.
    apply first_filter_delete. }
  split; [exact Hgone|]. rewrite read_note_run. cbn [db]. by rewrite Hgone.
Qed.

(** With notes 1 to 3 stored, note 2 is deleted and no longer found. *)
Lemma delete_note_example :
  ∃ s',
    delete_note 2 (mkServer (mkSession [] (many_notes 3)) [])
    = (Ok (Some (Note.mk 2 2 "title" "" "content" "" "")), s') ∧
    get_note (db s') 2 = Ok None ∧
    read_note 2 s' = (HTTPException 404 "Note not found", s').
Proof.
  apply (delete_note_then_get 2 (mkServer (mkSession [] (many_notes 3)) [])
           (Note.mk 2 2 "title" "" "content" "" "")).
  reflexivity.
Defined.

(** ** Roles *)

(** What [POST /chat_history/] stores carries the role it was given,
    whatever that string is. *)
Lemma create_new_chat_message_keeps_role now message s :
  ∃ row s',
    create_new_chat_message now message s = (Success row, s') ∧
    row ∈ chat_history (db s') ∧
    ChatHistory.role row = ChatMessageCreate.role message.
Proof.
  eexists _, _. rewrite create_new_chat_message_run.
  split; [reflexivity|]. cbn [db chat_history]. split; [set_solver|done].
Qed.

(** C9, where the code departs from it.  The comments on the [role] field
    and column say "user" or "assistant", but the field is a plain [str]:
    a message posted with role "system" is accepted and stored with that
    role. *)
Theorem chat_message_role_unchecked now :
  let message := ChatMessageCreate.mk "s1" "system" "x" "claude" "m" in
  ∃ row s',
    create_new_chat_message now message empty_server = (Success row, s') ∧
    row ∈ chat_history (db s') ∧
    ChatHistory.role row = "system" ∧
    ChatHistory.role row ≠ "user" ∧
    ChatHistory.role row ≠ "assistant".
Proof.
  intros message. eexists _, _. rewrite create_new_chat_message_run.
  split; [reflexivity|]. cbn [db chat_history]. split; [set_solver|done].
Qed.

(** A row committed while the generator runs is an assistant row. *)
Lemma anext_persists_assistant w now g s r s' row :
  anext w now g s = (r, s') →
  Persisted row ∈ history s' →
  Persisted row ∈ history s ∨ ChatHistory.role row = "assistant".
Proof.
  unfold anext.
  assert (∀ st, resume now g st s = (r, s') →
            Persisted row ∈ history s' →
            Persisted row ∈ history s ∨ ChatHistory.role row = "assistant")
    as Hres.
  { intros [|chunk rest|e].
    - rewrite resume_exhausted. intros [= <- <-]. cbn [history].
      rewrite elem_of_app, list_elem_of_singleton.
      intros [Hold | [= ->]]; [by left | by right].
    - rewrite resume_chunk. intros [= <- <-]. by left.
    - rewrite resume_failure. intros [= <- <-]. by left. }
  destruct (state g); [apply Hres | apply Hres |].
  intros [= <- <-]. by left.
Qed.

Lemma stream_response_persists_assistant w pulls row : ∀ clock g s r s',
  stream_response w clock pulls g s = (r, s') →
  Persisted row ∈ history s' →
  Persisted row ∈ history s ∨ ChatHistory.role row = "assistant".
Proof.
  induction pulls as [|pulls IH]; intros clock g s r s'.
  - intros [= <- <-]. by left.
  - cbn [stream_response]. unfold mbind, M_bind, bind.
    destruct (anext w (clock 0%nat) g s) as [[[[chunk|] g']|e] sa] eqn:Ha.
    + unfold tell. intros Hrun Hin.
      destruct (IH _ _ _ _ _ Hrun Hin) as [Hmid | Hrole]; [|by right].
      cbn [history] in Hmid.
      apply elem_of_app in Hmid as [Hmid | Hsent].
      * by apply (anext_persists_assistant _ _ _ _ _ _ _ Ha).
      * by apply list_elem_of_singleton in Hsent.
    + intros [= <- <-]. by apply (anext_persists_assistant _ _ _ _ _ _ _ Ha).
    + intros [= <- <-]. by apply (anext_persists_assistant _ _ _ _ _ _ _ Ha).
Qed.

(** Every chat row that an exchange with the handler of
    [/generate_stream] commits has role "user" or "assistant". *)
Lemma generate_stream_roles w now clock pulls req s row :
  Persisted row ∈ history (serve w now clock pulls req s).2 →
  Persisted row ∈ history s ∨
  ChatHistory.role row = "user" ∨ ChatHistory.role row = "assistant".
Proof.
  assert (∀ h,
            Persisted row
            ∈ h ++ [Persisted (stored now (db s) (user_message req));
                    AdapterCall (GenerateRequest.llm_provider req)
                      (GenerateRequest.llm_model req)] →
            Persisted row ∈ h ∨ ChatHistory.role row = "user") as Hhandler.
  { intros h. rewrite elem_of_app, !elem_of_cons.
    intros [Hold | [[= ->] | [[=] | Hnil]]]; [by left | by right |].
    by apply not_elem_of_nil in Hnil. }
  unfold serve, generate_stream. rewrite generate_stream_try_run.
  destruct get_llm as [llm|e].
  - destruct stream_response as [r s2] eqn:Hrun. cbn [snd]. intros Hin.
    destruct (stream_response_persists_assistant _ _ _ _ _ _ _ _ Hrun Hin)
      as [Hmid | Hrole]; [|tauto].
    cbn [history] in Hmid. apply Hhandler in Hmid. tauto.
  - destruct (is_ValueError e); cbn [snd history]; intros Hin;
      apply Hhandler in Hin; tauto.
Qed.

(** In the scenario of the specification the user row is among the rows
    written, and its role is one of the two. *)
Lemma generate_stream_roles_example :
  Persisted (stored 0 (db empty_server) (user_message example_request))
  ∈ history empty_server ∨
  ChatHistory.role
    (stored 0 (db empty_server) (user_message example_request)) = "user" ∨
  ChatHistory.role
    (stored 0 (db empty_server) (user_message example_request))
  = "assistant".
Proof.
  apply (generate_stream_roles example_world 0 (λ _, 5) 3%nat example_request
           empty_server).
  vm_compute. apply list_elem_of_here.
Defined.

(** ** The client helpers *)

Section ClientFailures.
Import Utils.
Variable send : http_request → attempt.
Variable API_BASE_URL : string.

Lemma request_ok_failed req :
  failed (send req) → ∃ e, request_ok send req = Raises e.
Proof.
  unfold failed, request_ok, raise_for_status.
  destruct (send req) as [r|e]; [intros -> | intros _]; by eexists.
Qed.

Lemma request_ok_undecodable req :
  undecodable (send req) →
  ∃ r, request_ok send req = Returns r ∧
       response_json r = Raises (OtherException "JSONDecodeError").
Proof.
  unfold undecodable, request_ok, raise_for_status, response_json.
  destruct (send req) as [r|e]; [intros [Hstatus Hbody] | done].
  exists r. by rewrite Hstatus, Hbody.
Qed.

(** The listing functions never raise: whatever the backend does, they
    return a value. *)
Lemma listings_never_raise session_id :
  (∃ j, (get_chat_history_from_backend send API_BASE_URL session_id).2
        = Returns j) ∧
  (∃ j, (get_notes_from_backend send API_BASE_URL).2 = Returns j).
Proof.
  unfold get_chat_history_from_backend, get_notes_from_backend.
  split.
  - destruct (request_ok send _) as [r|[]]; [|by eexists..].
    destruct (response_json r) as [j|[]]; by eexists.
  - destruct (request_ok send _) as [r|[]]; [|by eexists..].
    destruct (response_json r) as [j|[]]; by eexists.
Qed.

(** A body that is not JSON also yields the empty list. *)
Lemma listings_degrade_on_bad_body session_id :
  (undecodable
     (send (mkRequest "GET"
              (API_BASE_URL +:+ "/chat_history/" +:+ session_id) None)) →
   (get_chat_history_from_backend send API_BASE_URL session_id).2
   = Returns (JList [])) ∧
  (undecodable (send (mkRequest "GET" (API_BASE_URL +:+ "/notes/") None)) →
   (get_notes_from_backend send API_BASE_URL).2 = Returns (JList [])).
Proof.
  unfold get_chat_history_from_backend, get_notes_from_backend.
  split; intros Hbad;
    destruct (request_ok_undecodable _ Hbad) as (r & -> & ->); done.
Qed.
End ClientFailures.

(** C8 fails on the code for the note writers: when the backend cannot be
    reached, [create_note_backend] returns None and does not raise. *)
Lemma note_writer_swallows_failure :
  Utils.failed
    (unreachable
       (Utils.mkRequest "POST" ("http://127.0.0.1:8000" +:+ "/notes/")
          (Some (Utils.note_payload "title" "content")))) ∧
  (Utils.create_note_backend unreachable "http://127.0.0.1:8000"
     "title" "content").2
  = Utils.Returns None ∧
  ¬ ∃ e,
      (Utils.create_note_backend unreachable "http://127.0.0.1:8000"
         "title" "content").2
      = Utils.Raises e.
Proof.
  split; [exact I|]. split; [reflexivity|]. intros [e [=]].
Qed.

(** C8, as the code has it.  A request fails when the call raises or the
    status is not a success status; for the functions that decode the
    answer, a body that is not JSON is a failure too.  On any failure the
    two listing functions show the error with [st.error] and return the
    empty list.  Saving a chat message shows the error and raises it to
    its caller.  Creating and updating a note show the error and return
    None (for a body that is not JSON, after the success message);
    deleting a note shows the error and returns False; none of the three
    raises. *)
Theorem client_reads_degrade_writes_differ
    (send : Utils.http_request → Utils.attempt) (API_BASE_URL : string) :
  (∀ session_id,
     let a :=
       send (Utils.mkRequest "GET"
               (API_BASE_URL +:+ "/chat_history/" +:+ session_id) None) in
     Utils.failed a ∨ Utils.undecodable a →
     ∃ what e,
       Utils.get_chat_history_from_backend send API_BASE_URL session_id
       = ([Utils.st_error what e], Utils.Returns (Utils.JList []))) ∧
  (let a := send (Utils.mkRequest "GET" (API_BASE_URL +:+ "/notes/") None) in
   Utils.failed a ∨ Utils.undecodable a →
   ∃ what e,
     Utils.get_notes_from_backend send API_BASE_URL
     = ([Utils.st_error what e], Utils.Returns (Utils.JList []))) ∧
  (∀ session_id role message llm_provider llm_model,
     Utils.failed
       (send (Utils.mkRequest "POST" (API_BASE_URL +:+ "/chat_history/")
                (Some (Utils.chat_message_payload session_id role message
                         llm_provider llm_model)))) →
     ∃ what e,
       Utils.save_chat_message_to_backend send API_BASE_URL session_id role
         message llm_provider llm_model
       = ([Utils.st_error what e], Utils.Raises e)) ∧
  (∀ title content,
     let a :=
       send (Utils.mkRequest "POST" (API_BASE_URL +:+ "/notes/")
               (Some (Utils.note_payload title content))) in
     (Utils.failed a →
      ∃ what e,
        Utils.create_note_backend send API_BASE_URL title content
        = ([Utils.st_error what e], Utils.Returns None)) ∧
     (Utils.undecodable a →
      ∃ what e,
        Utils.create_note_backend send API_BASE_URL title content
        = ([Utils.st_success "Note created successfully!";
            Utils.st_error what e], Utils.Returns None))) ∧
  (∀ note_id title content,
     let a :=
       send (Utils.mkRequest "PUT"
               (API_BASE_URL +:+ "/notes/" +:+ pretty note_id)
               (Some (Utils.note_payload title content))) in
     (Utils.failed a →
      ∃ what e,
        Utils.update_note_backend send API_BASE_URL note_id title content
        = ([Utils.st_error what e], Utils.Returns None)) ∧
     (Utils.undecodable a →
      ∃ what e,
        Utils.update_note_backend send API_BASE_URL note_id title content
        = ([Utils.st_success "Note updated successfully!";
            Utils.st_error what e], Utils.Returns None))) ∧
  (∀ note_id,
     Utils.failed
       (send (Utils.mkRequest "DELETE"
                (API_BASE_URL +:+ "/notes/" +:+ pretty note_id) None)) →
     ∃ what e,
       Utils.delete_note_backend send API_BASE_URL note_id
       = ([Utils.st_error what e], Utils.Returns false)).
Proof.
  split.
  { intros session_id a [Hbad|Hbad]; subst a;
      unfold Utils.get_chat_history_from_backend.
    - destruct (request_ok_failed send _ Hbad) as [[] ->]; by eexists _, _.
    - destruct (request_ok_undecodable send _ Hbad) as (r & -> & ->).
      by eexists _, _. }
  split.
  { intros a [Hbad|Hbad]; subst a; unfold Utils.get_notes_from_backend.
    - destruct (request_ok_failed send _ Hbad) as [[] ->]; by eexists _, _.
    - destruct (request_ok_undecodable send _ Hbad) as (r & -> & ->).
      by eexists _, _. }
  split.
  { intros session_id role message llm_provider llm_model Hbad.
    unfold Utils.save_chat_message_to_backend.
    destruct (request_ok_failed send _ Hbad) as [[] ->]; by eexists _, _. }
  split.
  { intros title content a. subst a. unfold Utils.create_note_backend.
    split; intros Hbad.
    - destruct (request_ok_failed send _ Hbad) as [[] ->]; by eexists _, _.
    - destruct (request_ok_undecodable send _ Hbad) as (r & -> & ->).
      by eexists _, _. }
  split.
  { intros note_id title content a. subst a. unfold Utils.update_note_backend.
    split; intros Hbad.
    - destruct (request_ok_failed send _ Hbad) as [[] ->]; by eexists _, _.
    - destruct (request_ok_undecodable send _ Hbad) as (r & -> & ->).
      by eexists _, _. }
  intros note_id Hbad. unfold Utils.delete_note_backend.
  destruct (request_ok_failed send _ Hbad) as [[] ->]; by eexists _, _.
Qed.

(** With a backend that cannot be reached: the notes listing shows the
    error and is empty, saving a message shows it and raises it, deleting
    a note shows it and returns False. *)
Lemma client_failure_example :
  (∃ what e,
     Utils.get_notes_from_backend unreachable "http://127.0.0.1:8000"
     = ([Utils.st_error what e], Utils.Returns (Utils.JList []))) ∧
  (∃ what e,
     Utils.save_chat_message_to_backend unreachable "http://127.0.0.1:8000"
       "s1" "user" "Hi" "claude" "m"
     = ([Utils.st_error what e], Utils.Raises e)) ∧
  (∃ what e,
     Utils.delete_note_backend unreachable "http://127.0.0.1:8000" 7
     = ([Utils.st_error what e], Utils.Returns false)).
Proof.
  destruct (client_reads_degrade_writes_differ unreachable
              "http://127.0.0.1:8000")
    as (_ & Hnotes & Hsave & _ & _ & Hdelete).
  split; [apply Hnotes; by left|].
  split; [by apply Hsave | by apply Hdelete].
Defined.

(** ** Notes: unknown ids, and what an operation leaves alone *)

Lemma get_note_None d note_id :
  int64 note_id →
  get_note d note_id = Ok None ↔ ∀ n, n ∈ notes d → Note.id n ≠ note_id.
Proof.
  intros Hid. rewrite get_note_run by done. unfold first. split.
  - intros [= Hnil%head_None] n Hn Hn'.
    by apply (filter_nil_not_elem_of _ _ n Hnil).
  - intros Hnone. f_equal. apply head_None.
    induction (notes d) as [|r rows IH]; [done|].
    rewrite filter_cons, decide_False by (apply Hnone; left).
    apply IH. intros n Hn. apply Hnone. by right.
Qed.

(** When no stored note has the id, reading, updating and deleting it over
    HTTP are each answered 404 "Note not found", and the server is left as
    it was, provided the id is one the driver can bind; for an id beyond
    64 bits each of the three is answered 500, whatever is stored. *)
Theorem unknown_note_answers_404 note_id note s :
  (∀ n, n ∈ notes (db s) → Note.id n ≠ note_id) →
  (int64 note_id →
   read_note note_id s = (HTTPException 404 "Note not found", s) ∧
   update_existing_note note_id note s
   = (HTTPException 404 "Note not found", s) ∧
   delete_existing_note note_id s = (HTTPException 404 "Note not found", s)) ∧
  (¬ int64 note_id →
   read_note note_id s = (InternalServerError too_large, s) ∧
   update_existing_note note_id note s = (InternalServerError too_large, s) ∧
   delete_existing_note note_id s = (InternalServerError too_large, s) ∧
   status_code (read_note note_id s).1 = 500).
Proof.
  intros Hnone. split.
  - intros Hid. apply (get_note_None _ _ Hid) in Hnone.
    split; [by rewrite read_note_run, Hnone|].
    split; [by apply update_note_unknown | by apply delete_note_unknown].
  - intros Hid. pose proof (get_note_overflow (db s) _ Hid) as Hget.
    unfold update_existing_note, delete_existing_note, or_404.
    by rewrite read_note_run, update_note_run, delete_note_run, Hget.
Qed.

(** Note 9 in a table that holds the notes 1, 2 and 3; and the id 2^63. *)
Lemma unknown_note_example :
  (read_note 9 (mkServer (mkSession [] (many_notes 3)) [])
   = (HTTPException 404 "Note not found",
      mkServer (mkSession [] (many_notes 3)) []) ∧
   update_existing_note 9 (NoteBase.mk "t" "c")
     (mkServer (mkSession [] (many_notes 3)) [])
   = (HTTPException 404 "Note not found",
      mkServer (mkSession [] (many_notes 3)) []) ∧
   delete_existing_note 9 (mkServer (mkSession [] (many_notes 3)) [])
   = (HTTPException 404 "Note not found",
      mkServer (mkSession [] (many_notes 3)) [])) ∧
  status_code
    (read_note 9223372036854775808
       (mkServer (mkSession [] (many_notes 3)) [])).1 = 500.
Proof.
  assert (∀ id, 3 < id →
            ∀ n, n ∈ many_notes 3 → Note.id n ≠ id) as Hnone.
  { intros id Hid n Hn. vm_compute in Hn.
    repeat (apply elem_of_cons in Hn as [-> | Hn]; [cbn; lia|]).
    by apply not_elem_of_nil in Hn. }
  split.
  - apply (unknown_note_answers_404 9 (NoteBase.mk "t" "c")
             (mkServer (mkSession [] (many_notes 3)) []));
      [apply Hnone; lia | unfold int64; lia].
  - apply (unknown_note_answers_404 9223372036854775808 (NoteBase.mk "t" "c")
             (mkServer (mkSession [] (many_notes 3)) []));
      [apply Hnone; lia | unfold int64; lia].
Defined.

Lemma filter_flush_update (n' : Note.t) other rows :
  other ≠ Note.id n' →
  filter (λ r, Note.id r = other) (flush_update n' rows)
  = filter (λ r, Note.id r = other) rows.
Proof.
  intros Hother. unfold flush_update.
  induction rows as [|r rows IH]; [done|].
  rewrite fmap_cons, !filter_cons, IH.
  destruct (decide (Note.id r = Note.id n')) as [Hr|Hr]; [|done].
  rewrite !decide_False by congruence. done.
Qed.

Lemma filter_flush_delete (n : Note.t) other rows :
  other ≠ Note.id n →
  filter (λ r, Note.id r = other) (flush_delete n rows)
  = filter (λ r, Note.id r = other) rows.
Proof.
  intros Hother. unfold flush_delete.
  induction rows as [|r rows IH]; [done|].
  rewrite !filter_cons.
  destruct (decide (Note.id r ≠ Note.id n)) as [Hr|Hr].
  - by rewrite filter_cons, IH.
  - rewrite IH. apply dec_stable in Hr. by rewrite decide_False by congruence.
Qed.

(** Updating a stored note changes that note only: every other id reads as
    before, the table keeps its size, the chat rows and the history of
    events are untouched, and the columns the update does not name (url,
    comments, tags) keep their values. *)
Theorem update_note_changes_only_that_note note_id note s n :
  get_note (db s) note_id = Ok (Some n) →
  let s' := (update_note note_id note s).2 in
  (∀ other, other ≠ note_id →
            get_note (db s') other = get_note (db s) other) ∧
  length (notes (db s')) = length (notes (db s)) ∧
  chat_history (db s') = chat_history (db s) ∧
  history s' = history s ∧
  ∃ n',
    get_note (db s') note_id = Ok (Some n') ∧
    Note.url n' = Note.url n ∧
    Note.comments n' = Note.comments n ∧
    Note.tags n' = Note.tags n.
Proof.
  intros Hget s'. subst s'. rewrite update_note_run, Hget.
  apply get_note_Ok in Hget as [Hid64 Hget].
  cbn [snd db notes chat_history history].
  destruct (first_filter_Some _ _ _ Hget) as [_ Hid].
  destruct n as [i ts t u c cm tg], note as [t' c']. cbn in Hid. subst i.
  cbn [foldl NoteBase.dict setattr].
  repeat split.
  - intros other Hother. unfold get_note. cbn [notes].
    destruct (bind_integer other) as [other'|] eqn:Hb; [|done].
    assert (other' = other) as ->.
    { unfold bind_integer in Hb. case_decide; congruence. }
    do 2 f_equal.
    by apply (filter_flush_update (Note.mk note_id ts t' u c' cm tg)).
  - unfold flush_update. by rewrite length_fmap.
  - exists (Note.mk note_id ts t' u c' cm tg). split; [|done].
    rewrite get_note_run by done. cbn [notes]. f_equal.
    apply (first_filter_update (Note.mk note_id ts t' u c' cm tg)).
    eexists. exact Hget.
Qed.

(** Updating note 2 of three leaves note 3 as it was. *)
Lemma update_note_frame_example :
  get_note
    (db (update_note 2 (NoteBase.mk "new title" "new content")
           (mkServer (mkSession [] (many_notes 3)) [])).2) 3
  = get_note (mkSession [] (many_notes 3)) 3.
Proof.
  destruct (update_note_changes_only_that_note 2
              (NoteBase.mk "new title" "new content")
              (mkServer (mkSession [] (many_notes 3)) [])
              (Note.mk 2 2 "title" "" "content" "" "") eq_refl)
    as (Hother & _).
  by apply Hother.
Defined.

(** Deleting a stored note removes the rows with that id and nothing
    else: every other id reads as before, the table gets smaller, the chat
    rows and the history of events are untouched. *)
Theorem delete_note_removes_only_that_note note_id s n :
  get_note (db s) note_id = Ok (Some n) →
  let s' := (delete_note note_id s).2 in
  (∀ other, other ≠ note_id →
            get_note (db s') other = get_note (db s) other) ∧
  (length (notes (db s')) < length (notes (db s)))%nat ∧
  (∀ m, m ∈ notes (db s') ↔ m ∈ notes (db s) ∧ Note.id m ≠ note_id) ∧
  chat_history (db s') = chat_history (db s) ∧
  history s' = history s.
Proof.
  intros Hget s'. subst s'. rewrite delete_note_run, Hget.
  apply get_note_Ok in Hget as [Hid64 Hget].
  cbn [snd db notes chat_history history].
  destruct (first_filter_Some _ _ _ Hget) as [Hin Hid]. subst note_id.
  split; [|split; [|split; [|done]]].
  - intros other Hother. unfold get_note. cbn [notes].
    destruct (bind_integer other) as [other'|] eqn:Hb; [|done].
    assert (other' = other) as ->.
    { unfold bind_integer in Hb. case_decide; congruence. }
    do 2 f_equal. by apply filter_flush_delete.
  - unfold flush_delete. apply (length_filter_lt _ _ n); [done|]. by intros [].
  - intros m. unfold flush_delete. rewrite list_elem_of_filter. tauto.
Qed.

(** Deleting note 2 of three leaves note 3 as it was. *)
Lemma delete_note_frame_example :
  get_note (db (delete_note 2 (mkServer (mkSession [] (many_notes 3)) [])).2) 3
  = get_note (mkSession [] (many_notes 3)) 3.
Proof.
  destruct (delete_note_removes_only_that_note 2
              (mkServer (mkSession [] (many_notes 3)) [])
              (Note.mk 2 2 "title" "" "content" "" "") eq_refl)
    as (Hother & _).
  by apply Hother.
Defined.

(** ** Chat rows are only ever appended *)

Section KeepsChatRows.
#[local] Instance keeps_chat_rows_refl : Reflexive keeps_chat_rows.
Proof. intros s. unfold keeps_chat_rows. done. Qed.

Lemma keeps_chat_rows_app s s' rows :
  chat_history (db s') = chat_history (db s) ++ rows → keeps_chat_rows s s'.
Proof.
  intros Heq. unfold keeps_chat_rows. rewrite Heq. by apply prefix_app_r.
Qed.

(** No endpoint removes or rewrites a chat row: after a generation (for
    every number of pulls), after a posted message, the rows stored before
    are a prefix of the rows stored after; the reading endpoints leave the
    server as it was; the note endpoints leave the chat rows as they were. *)
Theorem chat_rows_are_only_appended w now clock pulls s :
  (∀ req, keeps_chat_rows s (serve w now clock pulls req s).2) ∧
  (∀ req, keeps_chat_rows s (post_generate_stream w now req s).2) ∧
  (∀ message, keeps_chat_rows s (create_new_chat_message now message s).2) ∧
  (∀ session_id, (get_session_chat_history session_id s).2 = s) ∧
  (∀ skip limit_, (read_notes skip limit_ s).2 = s) ∧
  (∀ note_id, (read_note note_id s).2 = s) ∧
  (∀ note,
     chat_history (db (create_new_note now note s).2) = chat_history (db s)) ∧
  (∀ note_id note,
     chat_history (db (update_existing_note note_id note s).2)
     = chat_history (db s)) ∧
  (∀ note_id,
     chat_history (db (delete_existing_note note_id s).2)
     = chat_history (db s)).
Proof.
  assert (∀ req, keeps_chat_rows s (generate_stream w now req s).2) as Hgen.
  { intros req. unfold generate_stream. rewrite generate_stream_try_run.
    destruct get_llm as [llm|e]; [|destruct (is_ValueError e)];
      by apply (keeps_chat_rows_app _ _ [stored now (db s) (user_message req)]). }
  split.
  { intros req. unfold serve, generate_stream. rewrite generate_stream_try_run.
    destruct get_llm as [llm|e].
    - destruct stream_response as [r s2] eqn:Hrun.
      apply stream_response_extends in Hrun as (rows & later & Hc & _ & _).
      cbn [snd db chat_history] in *.
      apply (keeps_chat_rows_app _ _
               ([stored now (db s) (user_message req)] ++ rows)).
      by rewrite Hc, (assoc_L (++)).
    - destruct (is_ValueError e);
        by apply (keeps_chat_rows_app _ _
                    [stored now (db s) (user_message req)]). }
  split.
  { intros req. unfold post_generate_stream.
    destruct (GenerateRequest.validate req); [apply Hgen | done]. }
  split.
  { intros message. rewrite create_new_chat_message_run.
    by apply (keeps_chat_rows_app _ _ [stored now (db s) message]). }
  split; [intros session_id; by rewrite get_session_chat_history_run|].
  split.
  { intros skip limit_.
    unfold read_notes, handler, mbind, M_bind, bind, get_db, lift.
    by destruct get_notes. }
  split; [intros note_id; rewrite read_note_run; by destruct get_note as [[]|]|].
  split; [intros note; by destruct note, s|].
  split.
  - intros note_id note. unfold update_existing_note, or_404.
    rewrite update_note_run. by destruct get_note as [[]|].
  - intros note_id. unfold delete_existing_note, or_404.
    rewrite delete_note_run. by destruct get_note as [[]|].
Qed.
End KeepsChatRows.

(** ** The provider adapter, in full *)

(** [get_llm] returns a model exactly when the provider is one of the
    three it knows, the credential variable of that provider is set to a
    non-empty string, and the constructor of the client class accepts the
    arguments; the model then has the client class of the provider, the
    key read from the environment, and the model name, temperature, token
    budget and streaming flag it was given, unchanged.  Otherwise it
    raises: a ValueError that names the tag for an unknown provider, a
    ValueError that names the variable for a credential that is unset or
    empty, and else the exception of the constructor. *)
Theorem get_llm_succeeds_iff_credential environ init provider model_name
    (temp : Q) (budget : Z) (flag : bool) :
  match get_llm environ init provider model_name temp budget flag with
  | Ok llm =>
      ∃ var,
        credential_variable provider = Some var ∧
        getenv environ var = Some (api_key llm) ∧
        api_key llm ≠ "" ∧
        client_for provider = Some (client llm) ∧
        model llm = model_name ∧
        temperature llm = temp ∧
        max_tokens llm = budget ∧
        streaming llm = flag ∧
        init llm = None
  | Raise e =>
      (credential_variable provider = None ∧
       e = ValueError ("Unsupported LLM provider: " +:+ provider)) ∨
      (∃ var,
         credential_variable provider = Some var ∧
         truthy (getenv environ var) = None ∧
         e = ValueError (var +:+ " environment variable not set.")) ∨
      (∃ var key c,
         credential_variable provider = Some var ∧
         getenv environ var = Some key ∧ key ≠ "" ∧
         client_for provider = Some c ∧
         init (mkChatModel c model_name temp budget flag key) = Some e)
  end.
Proof.
  unfold get_llm, credential_variable, client_for, construct.
  repeat destruct (decide (provider = _)); try (by left);
    (destruct (getenv environ _) as [key|] eqn:Henv; cbn [truthy];
     [destruct (decide (key = "")) as [->|Hkey]|]);
    try (right; left; eexists; split; [done|]; rewrite ?Henv; cbn [truthy];
         rewrite ?decide_True by done; done);
    (destruct (init _) as [err|] eqn:Hinit;
     [right; right; by eexists _, _, _ | by eexists]).
Qed.

(** ** The flag [rag_enabled] *)

Lemma anext_with_rag_enabled w now flag g s :
  anext w now (with_rag_enabled flag g) s =
  match anext w now g s with
  | (Ok (o, g'), s') => (Ok (o, with_rag_enabled flag g'), s')
  | (Raise e, s') => (Raise e, s')
  end.
Proof.
  assert (∀ st,
    resume now (with_rag_enabled flag g) st s =
    match resume now g st s with
    | (Ok (o, g'), s') => (Ok (o, with_rag_enabled flag g'), s')
    | (Raise e, s') => (Raise e, s')
    end) as Hres.
  { intros [|chunk rest|e]; [|done..].
    rewrite !resume_exhausted. destruct g as [[] ? ? ?]. done. }
  unfold anext. destruct g as [[] ? ? []]; cbn [state with_rag_enabled];
    [apply Hres | apply Hres | done].
Qed.

Lemma stream_response_with_rag_enabled w flag pulls : ∀ clock g s,
  stream_response w clock pulls (with_rag_enabled flag g) s
  = stream_response w clock pulls g s.
Proof.
  induction pulls as [|pulls IH]; intros clock g s; [done|].
  cbn [stream_response]. unfold mbind, M_bind, bind.
  rewrite anext_with_rag_enabled.
  destruct (anext w (clock 0%nat) g s) as [[[[chunk|] g']|e] sa]; [|done..].
  unfold tell. apply IH.
Qed.

(** The flag [rag_enabled] of a request changes nothing: the response, the
    fragments sent, the rows stored and the adapter calls of a run are the
    same for both values of the flag. *)
Theorem rag_enabled_is_ignored w now clock pulls req flag s :
  serve w now clock pulls (set_rag_enabled flag req) s
  = serve w now clock pulls req s.
Proof.
  unfold serve, generate_stream. rewrite !generate_stream_try_run.
  destruct req as [q p m t mt sid rag].
  cbn [set_rag_enabled GenerateRequest.question GenerateRequest.llm_provider
       GenerateRequest.llm_model GenerateRequest.temperature
       GenerateRequest.max_tokens GenerateRequest.session_id].
  change (user_message (GenerateRequest.mk q p m t mt sid flag))
    with (user_message (GenerateRequest.mk q p m t mt sid rag)).
  destruct get_llm as [llm|e]; [|done].
  rewrite <- (stream_response_with_rag_enabled w flag pulls clock
                (mkGenerator (GenerateRequest.mk q p m t mt sid rag)
                   (get_llm_chain llm false None) "" Created)).
  reflexivity.
Qed.

(** ** Pages of a listing *)

Lemma page_app {A} (rows : list A) skip limit1 limit2 :
  0 ≤ skip → 0 ≤ limit1 → 0 ≤ limit2 →
  limit limit1 (offset skip rows) ++ limit limit2 (offset (skip + limit1) rows)
  = limit (limit1 + limit2) (offset skip rows).
Proof.
  intros Hs H1 H2. rewrite !limit_nonneg by lia. unfold offset.
  rewrite !Z2Nat.inj_add by lia. rewrite <- drop_drop. apply take_take_drop.
Qed.

Lemma page_past_end {A} (rows : list A) skip limit_ :
  (length rows ≤ Z.to_nat skip)%nat → limit limit_ (offset skip rows) = [].
Proof.
  intros Hlen. unfold offset. rewrite drop_ge by done.
  unfold limit. case_decide; [done|]. apply take_nil.
Qed.

(** For non-negative skip and limits that the driver can bind, two
    consecutive pages of a listing are the one page of both limits
    together, for notes and for the messages of a session; a page that
    starts at or after the end is empty; a first page as long as the table
    holds every note. *)
Theorem listing_pages_concatenate d session_id skip limit1 limit2 :
  0 ≤ skip → 0 ≤ limit1 → 0 ≤ limit2 →
  int64 (skip + limit1) → int64 (limit1 + limit2) →
  ∃ notes1 notes2 chat1 chat2,
    get_notes d skip limit1 = Ok notes1 ∧
    get_notes d (skip + limit1) limit2 = Ok notes2 ∧
    get_notes d skip (limit1 + limit2) = Ok (notes1 ++ notes2) ∧
    get_chat_history d session_id skip limit1 = Ok chat1 ∧
    get_chat_history d session_id (skip + limit1) limit2 = Ok chat2 ∧
    get_chat_history d session_id skip (limit1 + limit2)
    = Ok (chat1 ++ chat2) ∧
    ((length (notes d) ≤ Z.to_nat skip)%nat → notes1 = []) ∧
    ((length (session_rows d session_id) ≤ Z.to_nat skip)%nat →
     chat1 = []) ∧
    (skip = 0 → (length (notes d) ≤ Z.to_nat limit1)%nat →
     notes1 ≡ₚ notes d).
Proof.
  intros Hs H1 H2 Hb1 Hb2.
  assert (int64 skip ∧ int64 limit1 ∧ int64 limit2) as (? & ? & ?)
    by (unfold int64 in *; lia).
  eexists _, _, _, _.
  rewrite !get_notes_run, !get_chat_history_run by done.
  split; [reflexivity|]. split; [reflexivity|].
  split; [by rewrite page_app|].
  split; [reflexivity|]. split; [reflexivity|].
  split; [by rewrite page_app|].
  split; [intros Hlen; apply page_past_end; by rewrite order_by_perm|].
  split; [intros Hlen; apply page_past_end; by rewrite order_by_perm|].
  intros -> Hlen. rewrite limit_nonneg by done. unfold offset.
  rewrite drop_0, take_ge by (by rewrite order_by_perm). apply order_by_perm.
Qed.

(** Five notes: the pages (skip 1, limit 2) and (skip 3, limit 2) are the
    page (skip 1, limit 4), newest first. *)
Lemma listing_pages_example :
  ∃ notes1 notes2,
    get_notes (mkSession [] (many_notes 5)) 1 2 = Ok notes1 ∧
    get_notes (mkSession [] (many_notes 5)) (1 + 2) 2 = Ok notes2 ∧
    get_notes (mkSession [] (many_notes 5)) 1 (2 + 2) = Ok (notes1 ++ notes2).
Proof.
  destruct (listing_pages_concatenate (mkSession [] (many_notes 5)) "s1" 1 2 2)
    as (notes1 & notes2 & _ & _ & Hn1 & Hn2 & Hn & _);
    [unfold int64; lia..|].
  by exists notes1, notes2.
Defined.

(** ** A generator writes its row once *)

(** Consuming a response generator, from any state of it and for any
    number of pulls, appends at most one chat row, with role assistant,
    and leaves the notes alone; a row is appended only when the stream was
    consumed to its end. *)
Theorem generator_persists_at_most_once w clock pulls g s :
  ∃ rows,
    chat_history (db (stream_response w clock pulls g s).2)
    = chat_history (db s) ++ rows ∧
    notes (db (stream_response w clock pulls g s).2) = notes (db s) ∧
    (length rows ≤ 1)%nat ∧
    Forall (λ row, ChatHistory.role row = "assistant") rows ∧
    (rows ≠ [] → (stream_response w clock pulls g s).1 = Ok Complete).
Proof.
  destruct (pending w g) as [rest|] eqn:Hp.
  - destruct (decide (length (stream_chunks rest) < pulls)%nat) as [Hlen|Hlen].
    + destruct (stream_failure rest) as [e|] eqn:Hfail.
      * rewrite (stream_response_failed w rest g clock pulls s e Hp Hfail Hlen).
        exists []. rewrite app_nil_r. cbn [snd fst db length].
        split; [done|]. split; [done|]. split; [lia|]. split; [constructor|done].
      * rewrite (stream_response_complete w rest g clock pulls s Hp Hfail Hlen).
        eexists [_]. cbn [snd fst db chat_history notes length].
        split; [done|]. split; [done|]. split; [lia|].
        split; [by repeat constructor | done].
    + rewrite (stream_response_disconnected w rest g clock pulls s Hp) by lia.
      exists []. rewrite app_nil_r. cbn [snd fst db length].
      split; [done|]. split; [done|]. split; [lia|]. split; [constructor|done].
  - assert (stream_response w clock pulls g s
            = (Ok (match pulls with O => Disconnected | S _ => Complete end), s))
      as ->.
    { unfold pending in Hp. destruct pulls as [|pulls]; [done|].
      cbn [stream_response]. unfold mbind, M_bind, bind, anext.
      by destruct (state g). }
    exists []. rewrite app_nil_r. cbn [snd fst db length].
    split; [done|]. split; [done|]. split; [lia|]. split; [constructor|done].
Qed.

(** ** A turn, as the history endpoint lists it *)

Lemma order_by_two (u a : ChatHistory.t) :
  ChatHistory.timestamp u < ChatHistory.timestamp a →
  order_by (asc ChatHistory.timestamp) [u; a] = [u; a].
Proof.
  intros Hlt. unfold order_by. cbn [foldr insert_by].
  rewrite decide_True; [done|]. unfold asc. lia.
Qed.

(** After a generation of a new session that was consumed to the end, the
    history endpoint lists exactly two messages for the session: the
    user's question, then the assistant's answer, whose text is the
    concatenation of the fragments (the answer being committed after the
    question). *)
Theorem completed_generation_is_listed w now clock pulls req s g s1 chunks :
  generate_stream w now req s = (Success g, s1) →
  astream w (chain g) (GenerateRequest.question req)
  = foldr Chunk Exhausted chunks →
  (length chunks < pulls)%nat →
  session_rows (db s) (GenerateRequest.session_id req) = [] →
  now < clock (length chunks) →
  ∃ user_row assistant_row s2,
    stream_response w clock pulls g s1 = (Ok Complete, s2) ∧
    get_session_chat_history (GenerateRequest.session_id req) s2
    = (Success [user_row; assistant_row], s2) ∧
    ChatHistory.role user_row = "user" ∧
    ChatHistory.message user_row = GenerateRequest.question req ∧
    ChatHistory.role assistant_row = "assistant" ∧
    ChatHistory.message assistant_row = String.concat "" chunks.
Proof.
  intros Hgen Hstream Hpulls Hfresh Hclock.
  destruct (generate_stream_success _ _ _ _ _ _ Hgen)
    as (Hreq & Hacc & Hst & Hdb & Hh).
  pose proof (pending_created w g Hst) as Hp. rewrite Hreq, Hstream in Hp.
  pose proof (stream_response_complete w _ g clock pulls s1 Hp) as Hrun.
  rewrite stream_failure_foldr, stream_chunks_foldr in Hrun.
  cbn [stream_chunks stream_failure] in Hrun. rewrite app_nil_r in Hrun.
  specialize (Hrun eq_refl Hpulls). cbn zeta in Hrun.
  rewrite Hacc, Hreq in Hrun.
  exists (stored now (db s) (user_message req)),
    (stored (clock (length chunks)) (db s1)
       (assistant_message req (String.concat "" chunks))).
  eexists. split; [exact Hrun|].
  split; [|repeat split; done].
  rewrite get_session_chat_history_run. cbn [db]. do 2 f_equal.
  unfold session_rows in *. cbn [chat_history]. rewrite Hdb. cbn [chat_history].
  rewrite !filter_app, Hfresh. cbn [app].
  rewrite !filter_cons, !filter_nil.
  rewrite !decide_True by done. cbn [app].
  rewrite order_by_two by done. done.
Qed.

(** The example request on the empty server, consumed to the end. *)
Lemma completed_generation_listed_example :
  ∃ g s1,
    generate_stream example_world 0 example_request empty_server
    = (Success g, s1) ∧
    ∃ user_row assistant_row s2,
      stream_response example_world (λ _, 5) 3 g s1 = (Ok Complete, s2) ∧
      get_session_chat_history "s1" s2
      = (Success [user_row; assistant_row], s2) ∧
      ChatHistory.role user_row = "user" ∧
      ChatHistory.message user_row = "Hi" ∧
      ChatHistory.role assistant_row = "assistant" ∧
      ChatHistory.message assistant_row = String.concat "" ["Hel"; "lo!"].
Proof.
  eexists _, _. split; [reflexivity|].
  apply (completed_generation_is_listed
           example_world 0 (λ _, 5) 3%nat example_request empty_server);
    [reflexivity | reflexivity | simpl; lia | reflexivity | lia].
Defined.



(** ** The session state of the configuration *)

Section SessionStateFacts.
Import SessionState.

Lemma lookup_init_key key v (st : gmap string value) k :
  init_key key v st !! k =
  match st !! k with
  | Some x => Some x
  | None => if decide (key = k) then Some v else None
  end.
Proof.
  unfold init_key. destruct (st !! key) as [x|] eqn:Hkey.
  - destruct (st !! k) as [y|] eqn:Hk; [done|].
    case_decide; [congruence | done].
  - rewrite lookup_insert. case_decide as Heq.
    + subst. by rewrite Hkey.
    + by destruct (st !! k).
Qed.

(** Initializing the configuration never overwrites a setting: a key that
    is present keeps its value, also one of the five configuration keys; a
    configuration key that is absent gets its default; no other key is
    touched; and initializing twice is initializing once. *)
Theorem initialize_keeps_settings (st : gmap string value) :
  let st' := initialize_llm_config_session_state st in
  (∀ k v, st !! k = Some v → st' !! k = Some v) ∧
  (∀ k v,
     (k, v) ∈ [("llm_provider", VStr "gemini");
               ("llm_model", VStr "gemini-2.5-flash");
               ("temperature", VFloat (3 # 10));
               ("max_tokens", VInt 1024);
               ("rag_enabled", VBool false)] →
     st !! k = None → st' !! k = Some v) ∧
  (∀ k, k ∉ config_keys → st' !! k = st !! k) ∧
  initialize_llm_config_session_state st' = st'.
Proof.
  intros st'.
  assert (∀ k, st' !! k =
    match st !! k with
    | Some x => Some x
    | None =>
        if decide ("llm_provider" = k) then Some (VStr "gemini")
        else if decide ("llm_model" = k) then Some (VStr "gemini-2.5-flash")
        else if decide ("temperature" = k) then Some (VFloat (3 # 10))
        else if decide ("max_tokens" = k) then Some (VInt 1024)
        else if decide ("rag_enabled" = k) then Some (VBool false)
        else None
    end) as Hlookup.
  { intros k. subst st'. unfold initialize_llm_config_session_state.
    rewrite !lookup_init_key. destruct (st !! k); [done|].
    by repeat destruct (decide (_ = k)). }
  split; [intros k v Hk; by rewrite Hlookup, Hk|].
  split.
  { intros k v Hin Hk. rewrite Hlookup, Hk.
    repeat (apply elem_of_cons in Hin as [[= -> ->] | Hin]; [done|]).
    by apply not_elem_of_nil in Hin. }
  split.
  { intros k. unfold config_keys. rewrite !not_elem_of_cons.
    intros (? & ? & ? & ? & ? & _). rewrite Hlookup.
    destruct (st !! k); [done|]. by rewrite !decide_False. }
  apply map_eq. intros k.
  unfold initialize_llm_config_session_state at 1.
  rewrite !lookup_init_key. destruct (st' !! k) eqn:Hk; [done|].
  rewrite Hlookup in Hk. destruct (st !! k); [done|].
  by repeat destruct (decide (_ = k)).
Qed.
End SessionStateFacts.

(** ** The streaming call of the client *)

Section StreamingCallFacts.
Import Utils StreamingCall.
Variable decode : list Byte.byte → option string.
Variable API_BASE_URL : string.

Lemma relay_decoded read_chunks texts :
  Forall2 (λ chunk text, decode chunk = Some text) read_chunks texts →
  ∀ last,
    relay decode API_BASE_URL (foldr Bytes last read_chunks)
    = foldr Yield (relay decode API_BASE_URL last) texts.
Proof.
  induction 1 as [|chunk text read_chunks texts Hd _ IH]; intros last; [done|].
  cbn [foldr relay]. by rewrite Hd, IH.
Qed.

Lemma relay_not_thrown b :
  thrown (relay decode API_BASE_URL b) = None →
  ∃ read_chunks,
    b = foldr Bytes EndOfBody read_chunks ∧
    Forall2 (λ chunk text, decode chunk = Some text) read_chunks
      (yielded (relay decode API_BASE_URL b)).
Proof.
  induction b as [|chunk rest IH|e]; cbn [relay].
  - intros _. by exists [].
  - destruct (decode chunk) as [text|] eqn:Hd; [|done]. cbn [thrown yielded].
    intros Hrest. destruct (IH Hrest) as (read_chunks & -> & Hall).
    exists (chunk :: read_chunks). split; [done|]. by constructor.
  - done.
Qed.
End StreamingCallFacts.

(** When the backend answers with a success status (2xx) and the body
    arrives whole, the streaming call yields the decoded chunks of the
    body, all of them, in order, and then stops without an exception. *)
Theorem streaming_call_relays_in_order
    (send : string → GenerateRequest.t → StreamingCall.stream_attempt)
    (decode : list Byte.byte → option string) (API_BASE_URL : string)
    question llm_provider llm_model temp budget session_id rag r
    read_chunks texts :
  send (API_BASE_URL +:+ "/generate_stream")
    (GenerateRequest.mk question llm_provider llm_model temp budget
       session_id rag)
  = StreamingCall.Entered r →
  Utils.is_error (StreamingCall.streamed_status r) = false →
  StreamingCall.streamed_body r
  = foldr StreamingCall.Bytes StreamingCall.EndOfBody read_chunks →
  Forall2 (λ chunk text, decode chunk = Some text) read_chunks texts →
  StreamingCall.call_generate_stream_api send decode API_BASE_URL question
    llm_provider llm_model temp budget session_id rag
  = foldr StreamingCall.Yield StreamingCall.Stop texts.
Proof.
  intros Hsend Hstatus Hbody Hdecode.
  unfold StreamingCall.call_generate_stream_api.
  rewrite Hsend, Hstatus, Hbody. by rewrite (relay_decoded _ _ _ _ Hdecode).
Qed.

(** The backend that streams "Hel" then "lo!". *)
Lemma streaming_call_example :
  StreamingCall.call_generate_stream_api streaming_backend example_decode
    "http://127.0.0.1:8000" "Hi" "claude" "claude-3-5-sonnet" (7 # 10) 1024
    "s1" false
  = foldr StreamingCall.Yield StreamingCall.Stop ["Hel"; "lo!"].
Proof.
  apply (streaming_call_relays_in_order streaming_backend example_decode
           "http://127.0.0.1:8000" "Hi" "claude" "claude-3-5-sonnet" (7 # 10)
           1024 "s1" false
           (StreamingCall.mkStreamed 200 (inl "")
              (StreamingCall.Bytes (String.list_byte_of_string "Hel")
                 (StreamingCall.Bytes (String.list_byte_of_string "lo!")
                    StreamingCall.EndOfBody)))
           [String.list_byte_of_string "Hel"; String.list_byte_of_string "lo!"]);
    [reflexivity | reflexivity | reflexivity |].
  repeat constructor.
Defined.

(** The streaming call never ends silently short: when the request cannot
    be sent it yields nothing and raises that exception; for a status
    that is not a success status it yields nothing (the body is ignored)
    and raises HTTPStatusError with that status; otherwise, if it ends
    without an
    exception, the body arrived whole and every chunk of it was decoded
    and yielded, in order. *)
Theorem streaming_call_never_ends_silently
    (send : string → GenerateRequest.t → StreamingCall.stream_attempt)
    (decode : list Byte.byte → option string) (API_BASE_URL : string)
    question llm_provider llm_model temp budget session_id rag :
  let c :=
    StreamingCall.call_generate_stream_api send decode API_BASE_URL question
      llm_provider llm_model temp budget session_id rag in
  match send (API_BASE_URL +:+ "/generate_stream")
          (GenerateRequest.mk question llm_provider llm_model temp budget
             session_id rag) with
  | StreamingCall.NotEntered e =>
      StreamingCall.yielded c = [] ∧ StreamingCall.thrown c = Some e
  | StreamingCall.Entered r =>
      if Utils.is_error (StreamingCall.streamed_status r)
      then
        StreamingCall.yielded c = [] ∧
        ∃ text,
          StreamingCall.thrown c
          = Some (Utils.HTTPStatusError (StreamingCall.streamed_status r) text)
      else
        StreamingCall.thrown c = None →
        ∃ read_chunks,
          StreamingCall.streamed_body r
          = foldr StreamingCall.Bytes StreamingCall.EndOfBody read_chunks ∧
          Forall2 (λ chunk text, decode chunk = Some text) read_chunks
            (StreamingCall.yielded c)
  end.
Proof.
  intros c. subst c. unfold StreamingCall.call_generate_stream_api.
  destruct (send _ _) as [r|e]; [|done].
  destruct (Utils.is_error (StreamingCall.streamed_status r)).
  - destruct (StreamingCall.streamed_text r); (split; [done | by eexists]).
  - apply relay_not_thrown.
Qed.

(** ** The chat page *)

Lemma receive_run c : ∀ st,
  ∃ shown,
    ChatPage.receive c st
    = (shown,
       ChatPage.set_current_response
         (ChatPage.current_response st
          +:+ String.concat "" (StreamingCall.yielded c))
         st,
       StreamingCall.thrown c).
Proof.
  induction c as [|chunk rest IH|notices e]; intros st.
  - exists [].
    cbn [ChatPage.receive StreamingCall.yielded StreamingCall.thrown].
    change (String.concat "" []) with "". rewrite append_nil_r.
    by destruct st.
  - destruct (IH (ChatPage.set_current_response
                    (ChatPage.current_response st +:+ chunk) st))
      as (more & Hrun).
    eexists.
    cbn [ChatPage.receive StreamingCall.yielded StreamingCall.thrown].
    rewrite Hrun. rewrite concat_cons, <- append_assoc. by destruct st.
  - eexists.
    cbn [ChatPage.receive StreamingCall.yielded StreamingCall.thrown].
    change (String.concat "" []) with "". rewrite append_nil_r.
    by destruct st.
Qed.

Lemma getitem_role_user prompt :
  ChatPage.getitem
    (Utils.JDict [("role", Utils.JStr "user"); ("content", Utils.JStr prompt)])
    "role"
  = inr (Utils.JStr "user").
Proof. reflexivity. Qed.

Lemma displayable_user prompt :
  displayable (Utils.JDict [("role", Utils.JStr "user");
                            ("content", Utils.JStr prompt)]).
Proof. by eexists _, _. Qed.

Lemma displayable_assistant text provider model_ :
  displayable (Utils.JDict [("role", Utils.JStr "assistant");
                            ("content", Utils.JStr text);
                            ("llm_provider", Utils.JStr provider);
                            ("llm_model", Utils.JStr model_)]).
Proof. by eexists _, _. Qed.

(** The fields of the session state, computed. *)
Ltac session_fields :=
  cbn [fst snd ChatPage.set_messages ChatPage.set_current_response
       ChatPage.messages ChatPage.current_response ChatPage.chat_session_id
       ChatPage.llm_provider ChatPage.llm_model ChatPage.temperature
       ChatPage.max_tokens ChatPage.rag_enabled] in *.

(** A chat turn whose streaming call ends without an exception appends two
    messages to the session: the user's prompt, then the assistant's
    answer, whose content is the concatenation of the chunks received and
    which carries the provider and model of the session; the response
    kept in the session is that concatenation, whatever it was before. *)
Theorem chat_turn_appends_both_messages
    (send : string → GenerateRequest.t → StreamingCall.stream_attempt)
    (decode : list Byte.byte → option string) (API_BASE_URL : string)
    prompt st :
  let c :=
    StreamingCall.call_generate_stream_api send decode API_BASE_URL prompt
      (ChatPage.llm_provider st) (ChatPage.llm_model st)
      (ChatPage.temperature st) (ChatPage.max_tokens st)
      (ChatPage.chat_session_id st) (ChatPage.rag_enabled st) in
  prompt ≠ "" →
  StreamingCall.thrown c = None →
  let st' := (ChatPage.on_prompt send decode API_BASE_URL prompt st).1.2 in
  (ChatPage.on_prompt send decode API_BASE_URL prompt st).2 = None ∧
  ChatPage.messages st'
  = ChatPage.messages st
    ++ [Utils.JDict [("role", Utils.JStr "user");
                     ("content", Utils.JStr prompt)];
        Utils.JDict
          [("role", Utils.JStr "assistant");
           ("content",
            Utils.JStr (String.concat "" (StreamingCall.yielded c)));
           ("llm_provider", Utils.JStr (ChatPage.llm_provider st));
           ("llm_model", Utils.JStr (ChatPage.llm_model st))]] ∧
  ChatPage.current_response st'
  = String.concat "" (StreamingCall.yielded c).
Proof.
  intros c Hprompt Hok st'. subst st'.
  unfold ChatPage.on_prompt. rewrite decide_False by done.
  destruct st as [msgs cr sid p m t mt rag].
  assert (c = StreamingCall.call_generate_stream_api send decode API_BASE_URL
                prompt p m t mt sid rag) as Hc by reflexivity.
  clearbody c. session_fields. cbv zeta. session_fields.
  rewrite <- Hc. unfold ChatPage.get_streaming_response.
  match goal with
  | |- context [ChatPage.receive c ?x] =>
      destruct (receive_run c x) as (shown & ->)
  end.
  rewrite Hok. cbn. by rewrite <- (assoc_L (++)).
Qed.

(** A turn on the example session against the backend that streams "Hel"
    then "lo!". *)
Lemma chat_turn_example :
  (ChatPage.on_prompt streaming_backend example_decode "http://127.0.0.1:8000"
     "Hi" example_state).2 = None ∧
  ChatPage.messages
    (ChatPage.on_prompt streaming_backend example_decode
       "http://127.0.0.1:8000" "Hi" example_state).1.2
  = ChatPage.messages example_state
    ++ [Utils.JDict [("role", Utils.JStr "user");
                     ("content", Utils.JStr "Hi")];
        Utils.JDict
          [("role", Utils.JStr "assistant");
           ("content", Utils.JStr "Hello!");
           ("llm_provider", Utils.JStr "claude");
           ("llm_model", Utils.JStr "claude-3-5-sonnet")]] ∧
  ChatPage.current_response
    (ChatPage.on_prompt streaming_backend example_decode
       "http://127.0.0.1:8000" "Hi" example_state).1.2
  = "Hello!".
Proof.
  apply (chat_turn_appends_both_messages streaming_backend example_decode
           "http://127.0.0.1:8000" "Hi" example_state);
    [discriminate | reflexivity].
Defined.

(** A chat turn whose streaming call raises leaves the messages of the
    session as they were before the prompt (the user message just appended
    is removed again), clears the partial response, shows the exception,
    and raises nothing itself. *)
Theorem chat_turn_rolls_back_on_failure
    (send : string → GenerateRequest.t → StreamingCall.stream_attempt)
    (decode : list Byte.byte → option string) (API_BASE_URL : string)
    prompt st e :
  let c :=
    StreamingCall.call_generate_stream_api send decode API_BASE_URL prompt
      (ChatPage.llm_provider st) (ChatPage.llm_model st)
      (ChatPage.temperature st) (ChatPage.max_tokens st)
      (ChatPage.chat_session_id st) (ChatPage.rag_enabled st) in
  prompt ≠ "" →
  StreamingCall.thrown c = Some e →
  let st' := (ChatPage.on_prompt send decode API_BASE_URL prompt st).1.2 in
  (ChatPage.on_prompt send decode API_BASE_URL prompt st).2 = None ∧
  ChatPage.messages st' = ChatPage.messages st ∧
  ChatPage.current_response st' = "" ∧
  ChatPage.st_error e
  ∈ (ChatPage.on_prompt send decode API_BASE_URL prompt st).1.1.
Proof.
  intros c Hprompt Hfail st'. subst st'.
  unfold ChatPage.on_prompt. rewrite decide_False by done.
  destruct st as [msgs cr sid p m t mt rag].
  assert (c = StreamingCall.call_generate_stream_api send decode API_BASE_URL
                prompt p m t mt sid rag) as Hc by reflexivity.
  clearbody c. session_fields. cbv zeta. session_fields.
  rewrite <- Hc. unfold ChatPage.get_streaming_response.
  match goal with
  | |- context [ChatPage.receive c ?x] =>
      destruct (receive_run c x) as (shown & ->)
  end.
  rewrite Hfail. session_fields.
  rewrite last_snoc, getitem_role_user. cbn [ChatPage.is_user].
  rewrite bool_decide_eq_true_2 by done. session_fields.
  rewrite removelast_last.
  repeat split. set_solver.
Qed.

(** A turn on the example session against the backend whose body breaks
    after "Hel". *)
Lemma chat_turn_failure_example :
  (ChatPage.on_prompt breaking_backend example_decode "http://127.0.0.1:8000"
     "Hi" example_state).2 = None ∧
  ChatPage.messages
    (ChatPage.on_prompt breaking_backend example_decode
       "http://127.0.0.1:8000" "Hi" example_state).1.2
  = ChatPage.messages example_state ∧
  ChatPage.current_response
    (ChatPage.on_prompt breaking_backend example_decode
       "http://127.0.0.1:8000" "Hi" example_state).1.2
  = "" ∧
  ChatPage.st_error (Utils.RequestError "peer closed")
  ∈ (ChatPage.on_prompt breaking_backend example_decode
       "http://127.0.0.1:8000" "Hi" example_state).1.1.
Proof.
  apply (chat_turn_rolls_back_on_failure breaking_backend example_decode
           "http://127.0.0.1:8000" "Hi" example_state
           (Utils.RequestError "peer closed"));
    [discriminate | reflexivity].
Defined.

(** [display_chat_messages] draws every message, two elements each, when
    each message has a "role" and a "content"; the rows the history
    endpoint returns have a "message" and no "content", so a loaded
    history that is not empty stops the display with KeyError "content"
    after the first chat bubble was opened. *)
Theorem display_needs_role_and_content :
  (∀ messages,
     Forall displayable messages →
     ∃ shown,
       ChatPage.display_chat_messages messages = (shown, None) ∧
       length shown = (2 * length messages)%nat) ∧
  (∀ (isoformat : Z → string) row rows,
     ChatPage.display_chat_messages
       (ChatMessageResponse isoformat <$> row :: rows)
     = ([ChatPage.chat_message (Utils.JStr (ChatHistory.role row))],
        Some (ChatPage.KeyError "content"))).
Proof.
  split; [|reflexivity].
  induction 1 as [|m messages (role & content & Hrole & Hcontent) _
                   (shown & IH & Hlen)].
  - by exists [].
  - eexists. cbn [ChatPage.display_chat_messages].
    rewrite Hrole, Hcontent, IH. split; [done|]. cbn [length]. lia.
Qed.

(** Chat turns keep the session displayable: when every message of the
    session can be drawn, then after a turn (with any prompt, whatever the
    backend does) the turn raised nothing, every message can still be
    drawn, and [display_chat_messages] runs to the end. *)
Theorem chat_turn_keeps_messages_displayable
    (send : string → GenerateRequest.t → StreamingCall.stream_attempt)
    (decode : list Byte.byte → option string) (API_BASE_URL : string)
    prompt st :
  Forall displayable (ChatPage.messages st) →
  (ChatPage.on_prompt send decode API_BASE_URL prompt st).2 = None ∧
  Forall displayable
    (ChatPage.messages
       (ChatPage.on_prompt send decode API_BASE_URL prompt st).1.2) ∧
  ∃ shown,
    ChatPage.display_chat_messages
      (ChatPage.messages
         (ChatPage.on_prompt send decode API_BASE_URL prompt st).1.2)
    = (shown, None).
Proof.
  intros Hst.
  assert ((ChatPage.on_prompt send decode API_BASE_URL prompt st).2 = None ∧
          Forall displayable
            (ChatPage.messages
               (ChatPage.on_prompt send decode API_BASE_URL prompt st).1.2))
    as [Hnone Hall].
  { unfold ChatPage.on_prompt. destruct (decide (prompt = "")); [done|].
    destruct st as [msgs cr sid p m t mt rag].
    session_fields. cbv zeta. session_fields.
    unfold ChatPage.get_streaming_response.
    match goal with
    | |- context [ChatPage.receive ?c ?x] =>
        destruct (receive_run c x) as (shown & ->);
        destruct (StreamingCall.thrown c) as [e|]
    end.
    - session_fields. rewrite last_snoc, getitem_role_user.
      cbn [ChatPage.is_user]. rewrite bool_decide_eq_true_2 by done.
      session_fields. by rewrite removelast_last.
    - session_fields.
      split; [done|]. rewrite !Forall_app. split; [split; [done|]|].
      + constructor; [apply displayable_user | constructor].
      + constructor; [apply displayable_assistant | constructor]. }
  split; [done|]. split; [done|].
  clear Hnone.
  induction Hall as [|m messages (role & content & Hrole & Hcontent) _
                      (shown & IH)].
  - by exists [].
  - eexists. cbn [ChatPage.display_chat_messages].
    by rewrite Hrole, Hcontent, IH.
Qed.

(** The example session after a turn whose stream breaks. *)
Lemma chat_turn_displayable_example :
  Forall displayable
    (ChatPage.messages
       (ChatPage.on_prompt breaking_backend example_decode
          "http://127.0.0.1:8000" "Hi" example_state).1.2).
Proof.
  apply (chat_turn_keeps_messages_displayable breaking_backend example_decode
           "http://127.0.0.1:8000" "Hi" example_state).
  repeat constructor; by eexists _, _.
Defined.

(** ** The client helpers, when the backend answers *)

(** When the backend answers every request with a success status (2xx)
    and a JSON body, the listings return that body, saving a message returns
    without raising, creating and updating a note return the body, and
    deleting returns True; the three note writers show a success message,
    the other three show nothing. *)
Theorem client_calls_return_the_body
    (send : Utils.http_request → Utils.attempt) (API_BASE_URL : string) r j :
  (∀ req, send req = Utils.Answered r) →
  Utils.is_error (Utils.resp_status r) = false →
  Utils.resp_body r = Some j →
  (∀ session_id,
     Utils.get_chat_history_from_backend send API_BASE_URL session_id
     = ([], Utils.Returns j)) ∧
  Utils.get_notes_from_backend send API_BASE_URL = ([], Utils.Returns j) ∧
  (∀ session_id role message llm_provider llm_model,
     Utils.save_chat_message_to_backend send API_BASE_URL session_id role
       message llm_provider llm_model
     = ([], Utils.Returns tt)) ∧
  (∀ title content,
     Utils.create_note_backend send API_BASE_URL title content
     = ([Utils.st_success "Note created successfully!"],
        Utils.Returns (Some j))) ∧
  (∀ note_id title content,
     Utils.update_note_backend send API_BASE_URL note_id title content
     = ([Utils.st_success "Note updated successfully!"],
        Utils.Returns (Some j))) ∧
  (∀ note_id,
     Utils.delete_note_backend send API_BASE_URL note_id
     = ([Utils.st_success "Note deleted successfully!"],
        Utils.Returns true)).
Proof.
  intros Hsend Hstatus Hbody.
  assert (∀ req, Utils.request_ok send req = Utils.Returns r) as Hreq.
  { intros req. unfold Utils.request_ok, Utils.raise_for_status.
    by rewrite Hsend, Hstatus. }
  assert (Utils.response_json r = Utils.Returns j) as Hjson.
  { unfold Utils.response_json. by rewrite Hbody. }
  repeat split; intros;
    unfold Utils.get_chat_history_from_backend, Utils.get_notes_from_backend,
      Utils.save_chat_message_to_backend, Utils.create_note_backend,
      Utils.update_note_backend, Utils.delete_note_backend;
    rewrite Hreq, ?Hjson; done.
Qed.

(** The backend that answers 200 and the empty dict. *)
Lemma client_calls_example :
  Utils.get_notes_from_backend obliging "http://127.0.0.1:8000"
  = ([], Utils.Returns (Utils.JDict [])) ∧
  Utils.delete_note_backend obliging "http://127.0.0.1:8000" 7
  = ([Utils.st_success "Note deleted successfully!"], Utils.Returns true).
Proof.
  destruct (client_calls_return_the_body obliging "http://127.0.0.1:8000"
              (Utils.mkResponse 200 "{}" (Some (Utils.JDict [])))
              (Utils.JDict []))
    as (_ & Hnotes & _ & _ & _ & Hdelete); [done | reflexivity | done |].
  split; [exact Hnotes | apply Hdelete].
Defined.

(** Whatever the backend does, five of the six client helpers return: the
    two listings and the three note writers never raise.  Saving a message
    is the only one that can raise, and it raises exactly when its request
    fails (it never looks at the body of the answer). *)
Theorem only_saving_a_message_raises
    (send : Utils.http_request → Utils.attempt) (API_BASE_URL : string) :
  (∀ session_id,
     ∃ j, (Utils.get_chat_history_from_backend send API_BASE_URL
             session_id).2 = Utils.Returns j) ∧
  (∃ j, (Utils.get_notes_from_backend send API_BASE_URL).2
        = Utils.Returns j) ∧
  (∀ title content,
     ∃ o, (Utils.create_note_backend send API_BASE_URL title content).2
          = Utils.Returns o) ∧
  (∀ note_id title content,
     ∃ o, (Utils.update_note_backend send API_BASE_URL note_id title
             content).2 = Utils.Returns o) ∧
  (∀ note_id,
     ∃ b, (Utils.delete_note_backend send API_BASE_URL note_id).2
          = Utils.Returns b) ∧
  (∀ session_id role message llm_provider llm_model,
     (Utils.save_chat_message_to_backend send API_BASE_URL session_id role
        message llm_provider llm_model).2
     = match Utils.request_ok send
               (Utils.mkRequest "POST" (API_BASE_URL +:+ "/chat_history/")
                  (Some (Utils.chat_message_payload session_id role message
                           llm_provider llm_model))) with
       | Utils.Returns _ => Utils.Returns tt
       | Utils.Raises e => Utils.Raises e
       end).
Proof.
  split; [intros session_id; unfold Utils.get_chat_history_from_backend|].
  { destruct (Utils.request_ok send _) as [r|[]]; [|by eexists..].
    destruct (Utils.response_json r) as [j|[]]; by eexists. }
  split; [unfold Utils.get_notes_from_backend|].
  { destruct (Utils.request_ok send _) as [r|[]]; [|by eexists..].
    destruct (Utils.response_json r) as [j|[]]; by eexists. }
  split; [intros title content; unfold Utils.create_note_backend|].
  { destruct (Utils.request_ok send _) as [r|[]]; [|by eexists..].
    destruct (Utils.response_json r) as [j|e]; by eexists. }
  split; [intros note_id title content; unfold Utils.update_note_backend|].
  { destruct (Utils.request_ok send _) as [r|[]]; [|by eexists..].
    destruct (Utils.response_json r) as [j|e]; by eexists. }
  split; [intros note_id; unfold Utils.delete_note_backend|].
  { destruct (Utils.request_ok send _) as [r|[]]; by eexists. }
  intros session_id role message llm_provider llm_model.
  unfold Utils.save_chat_message_to_backend.
  by destruct (Utils.request_ok send _) as [r|[]].
Qed.

(** ** The configuration page *)

(** Membership in a list that is given in full. *)
Ltac listed := apply (bool_decide_unpack _); exact I.

Section ConfigurationPageFacts.
Import SessionState ConfigurationPage.

Lemma lookup_initialize (st : gmap string value) k :
  initialize_llm_config_session_state st !! k =
  match st !! k with
  | Some x => Some x
  | None =>
      if decide ("llm_provider" = k) then Some (VStr "gemini")
      else if decide ("llm_model" = k) then Some (VStr "gemini-2.5-flash")
      else if decide ("temperature" = k) then Some (VFloat (3 # 10))
      else if decide ("max_tokens" = k) then Some (VInt 1024)
      else if decide ("rag_enabled" = k) then Some (VBool false)
      else None
  end.
Proof.
  unfold initialize_llm_config_session_state.
  rewrite !lookup_init_key. destruct (st !! k); [done|].
  by repeat destruct (decide (_ = k)).
Qed.

Lemma getattr_inr (st : gmap string value) name v :
  getattr st name = inr v ↔ st !! name = Some v.
Proof. unfold getattr. destruct (st !! name); naive_solver. Qed.

Lemma getitem_elem_of {V} (d : list (string * V)) key v :
  getitem d key = Some v → (key, v) ∈ d.
Proof.
  unfold getitem. destruct (list_find _ d) as [[i [k' v']]|] eqn:Hfind; [|done].
  intros [= <-]. apply list_find_Some in Hfind as (Hi & Hk & _).
  cbn in Hk. subst k'. by eapply list_elem_of_lookup_2.
Qed.

Lemma selectbox_inr picked options i o :
  selectbox picked options i = inr (Some o) →
  o ∈ options ∧ (picked = None → options !! i = Some o).
Proof.
  unfold selectbox. destruct options as [|o1 options]; [done|].
  destruct ((o1 :: options) !! i) as [d|] eqn:Hd; [|done].
  intros [= <-]. assert (d ∈ o1 :: options) by by eapply list_elem_of_lookup_2.
  destruct picked as [c|]; [|done]. by case_decide.
Qed.

Lemma selectbox_total picked options i :
  (i < length options)%nat →
  ∃ o, selectbox picked options i = inr (Some o).
Proof.
  intros Hi. unfold selectbox. destruct options as [|o1 options]; [cbn in Hi; lia|].
  destruct (lookup_lt_is_Some_2 (o1 :: options) i Hi) as [d ->]. by eexists.
Qed.

Lemma slider_float_inr moved lo hi v t :
  slider_float moved lo hi v = inr t →
  ∃ q, v = VFloat q ∧
       (moved = None → t = q) ∧
       ((lo <= q)%Q → (q <= hi)%Q → (lo <= t)%Q ∧ (t <= hi)%Q).
Proof.
  unfold slider_float. destruct v as [|q| |]; try done.
  intros [= <-]. exists q. split; [done|].
  destruct moved as [m|]; [|done]. split; [done|]. intros Hlo Hhi.
  destruct (_ && _) eqn:Hm; [|done].
  apply andb_prop in Hm as [H1 H2].
  apply orb_prop in H1, H2. rewrite !Qle_bool_iff in H1, H2. split.
  - destruct H1 as [H1|H1]; [done|]. by apply (Qle_trans _ q).
  - destruct H2 as [H2|H2]; [done|]. by apply (Qle_trans _ q).
Qed.

Lemma slider_int_inr moved lo hi v k :
  slider_int moved lo hi v = inr k →
  ∃ z, v = VInt z ∧
       (moved = None → k = z) ∧
       (lo ≤ z ≤ hi → lo ≤ k ≤ hi).
Proof.
  unfold slider_int. destruct v as [| |z|]; try done.
  intros [= <-]. exists z. split; [done|].
  destruct moved as [m|]; [|done]. split; [done|]. intros Hz.
  case_bool_decide; lia.
Qed.

Lemma provider_of_LLM_MODELS p (models : list (string * string)) :
  (p, models) ∈ LLM_MODELS → p ∈ GenerateRequest.providers.
Proof.
  unfold LLM_MODELS, GenerateRequest.providers. intros Hin.
  repeat (apply elem_of_cons in Hin as [[= -> _] | Hin]; [listed|]).
  by apply not_elem_of_nil in Hin.
Qed.

Lemma model_of_LLM_MODELS p (models : list (string * string)) name m :
  (p, models) ∈ LLM_MODELS → (name, m) ∈ models → listed_model m.
Proof.
  intros Hp Hm. unfold listed_model. apply list_elem_of_bind.
  exists (p, models). split; [|done]. apply list_elem_of_fmap.
  by exists (name, m).
Qed.

Lemma getitem_total {V} (d : list (string * V)) key :
  key ∈ d.*1 → ∃ v, getitem d key = Some v.
Proof.
  intros Hin. apply list_elem_of_fmap in Hin as ([k v] & -> & Hin).
  unfold getitem.
  destruct (list_find _ d) as [[i [k' v']]|] eqn:Hfind; [by eexists|].
  apply list_find_None in Hfind. rewrite Forall_forall in Hfind.
  by destruct (Hfind (k, v) Hin).
Qed.

Lemma index_Some options v i :
  index options v = Some i → ∃ s, v = VStr s ∧ options !! i = Some s.
Proof.
  unfold index. destruct v as [s| | |]; try done.
  destruct (list_find _ options) as [[j o]|] eqn:Hfind; [|done].
  intros [= <-]. apply list_find_Some in Hfind as (Hj & -> & _). by exists s.
Qed.

Lemma index_total options s :
  s ∈ options → ∃ i, index options (VStr s) = Some i ∧ (i < length options)%nat.
Proof.
  intros Hin. unfold index.
  destruct (list_find _ options) as [[i o]|] eqn:Hfind.
  - exists i. split; [done|].
    apply list_find_Some in Hfind as (Hi & _). by eapply lookup_lt_Some.
  - apply list_find_None in Hfind. rewrite Forall_forall in Hfind.
    by destruct (Hfind s Hin).
Qed.

Lemma model_default_index_lt (models : list (string * string)) cur :
  models ≠ [] → (model_default_index models cur < length models.*1)%nat.
Proof.
  intros Hne. assert (0 < length models.*1)%nat as Hpos.
  { destruct models; [done|]. cbn. lia. }
  unfold model_default_index.
  destruct cur as [s| | |]; try done.
  destruct (list_find _ models) as [found|]; [|done]. cbn [fmap option_fmap option_map].
  destruct (index models.*1 (VStr found.2.1)) as [i|] eqn:Hi; [|done].
  apply index_Some in Hi as (? & _ & Hi). cbn [default]. by eapply lookup_lt_Some.
Qed.

Lemma models_nonempty p (models : list (string * string)) :
  (p, models) ∈ LLM_MODELS → models ≠ [].
Proof.
  unfold LLM_MODELS. intros Hin.
  repeat (apply elem_of_cons in Hin as [[= _ ->] | Hin]; [done|]).
  by apply not_elem_of_nil in Hin.
Qed.

Lemma is_Some_initialize (st : gmap string value) k :
  k ∈ config_keys → is_Some (initialize_llm_config_session_state st !! k).
Proof.
  intros Hk. rewrite lookup_initialize. destruct (st !! k); [done|].
  unfold config_keys in Hk.
  repeat (apply elem_of_cons in Hk as [-> | Hk]; [done|]).
  by apply not_elem_of_nil in Hk.
Qed.

(** What a run of the page that ends leaves, step by step. *)
Lemma page_inr u st st' :
  page u st = inr st' →
  let st0 := initialize_llm_config_session_state st in
  ∃ p models name m q t z k b,
    (p, models) ∈ LLM_MODELS ∧ (name, m) ∈ models ∧
    st0 !! "temperature" = Some (VFloat q) ∧
    st0 !! "max_tokens" = Some (VInt z) ∧
    ((0 <= q)%Q → (q <= 1)%Q → (0 <= t)%Q ∧ (t <= 1)%Q) ∧
    (100 ≤ z ≤ 4096 → 100 ≤ k ≤ 4096) ∧
    st' = <["rag_enabled" := VBool b]>
            (<["max_tokens" := VInt k]>
               (<["temperature" := VFloat t]>
                  (<["llm_model" := VStr m]>
                     (<["llm_provider" := VStr p]> st0)))) ∧
    (provider_box u = None → st0 !! "llm_provider" = Some (VStr p)) ∧
    (model_box u = None →
     ∃ cur, st0 !! "llm_model" = Some cur ∧
            models.*1 !! model_default_index models cur = Some name) ∧
    (temperature_slider u = None → t = q) ∧
    (max_tokens_slider u = None → k = z) ∧
    (rag_checkbox u = None →
     ∃ rv, st0 !! "rag_enabled" = Some rv ∧ b = truth rv).
Proof.
  unfold page. cbv zeta.
  set (st0 := initialize_llm_config_session_state st).
  unfold mbind, page_bind.
  destruct (getattr st0 "llm_provider") as [|p0] eqn:Hp0; [done|].
  destruct (index _ p0) as [i|] eqn:Hi; [|done].
  destruct (selectbox _ _ i) as [|[p|]] eqn:Hbox; [done| |done].
  cbn [option_bind].
  destruct (getitem LLM_MODELS p) as [models|] eqn:Hmodels; [|done].
  cbn [fmap option_fmap option_map].
  destruct (getattr _ "llm_model") as [|cur] eqn:Hcur; [done|].
  destruct (selectbox (model_box u) _ _) as [|[name|]] eqn:Hname;
    [done| |done].
  cbn [option_bind].
  destruct (getitem models name) as [m|] eqn:Hm; [|done].
  destruct (getattr _ "temperature") as [|tv] eqn:Htv; [done|].
  destruct (slider_float _ _ _ tv) as [|t] eqn:Ht; [done|].
  destruct (getattr _ "max_tokens") as [|kv] eqn:Hkv; [done|].
  destruct (slider_int _ _ _ kv) as [|k] eqn:Hk; [done|].
  destruct (getattr _ "rag_enabled") as [|rv] eqn:Hrv; [done|].
  intros [= <-].
  apply getattr_inr in Hp0, Hcur, Htv, Hkv, Hrv.
  rewrite lookup_insert_ne in Hcur by done.
  do 2 rewrite lookup_insert_ne in Htv by done.
  do 3 rewrite lookup_insert_ne in Hkv by done.
  do 4 rewrite lookup_insert_ne in Hrv by done.
  apply getitem_elem_of in Hmodels, Hm.
  apply index_Some in Hi as (s & -> & Hs).
  apply selectbox_inr in Hbox as [_ Hbox], Hname as [_ Hname].
  apply slider_float_inr in Ht as (q & -> & Htq & Htrange).
  apply slider_int_inr in Hk as (z & -> & Hkz & Hkrange).
  exists p, models, name, m, q, t, z, k, (checkbox (rag_checkbox u) rv).
  split; [done|]. split; [done|]. split; [done|]. split; [done|].
  split; [done|]. split; [done|]. split; [done|].
  split; [intros Hu; specialize (Hbox Hu); congruence|].
  split; [intros Hu; exists cur; auto|].
  split; [done|]. split; [done|].
  intros Hu. exists rv. by rewrite Hu.
Qed.

(** When a run of the page ends. *)
Lemma page_total u st p0 q z :
  let st0 := initialize_llm_config_session_state st in
  st0 !! "llm_provider" = Some (VStr p0) → p0 ∈ LLM_MODELS.*1 →
  st0 !! "temperature" = Some (VFloat q) →
  st0 !! "max_tokens" = Some (VInt z) →
  ∃ st', page u st = inr st'.
Proof.
  intros st0 Hp0 Hin Hq Hz.
  destruct (is_Some_initialize st "llm_model") as [cur Hcur]; [listed|].
  destruct (is_Some_initialize st "rag_enabled") as [rv Hrv]; [listed|].
  unfold page. cbv zeta. fold st0. unfold mbind, page_bind.
  rewrite (proj2 (getattr_inr _ _ _) Hp0).
  destruct (index_total _ _ Hin) as (i & -> & Hi).
  destruct (selectbox_total (provider_box u) _ i Hi) as [p Hbox].
  rewrite Hbox. apply selectbox_inr in Hbox as [Hp _].
  cbn [option_bind].
  destruct (getitem_total _ _ Hp) as [models Hmodels]. rewrite Hmodels.
  cbn [fmap option_fmap option_map].
  apply getitem_elem_of in Hmodels.
  rewrite (proj2 (getattr_inr _ _ cur)) by by rewrite lookup_insert_ne.
  destruct (selectbox_total (model_box u) _ _
              (model_default_index_lt models cur
                 (models_nonempty _ _ Hmodels))) as [name Hname].
  rewrite Hname. apply selectbox_inr in Hname as [Hname _].
  cbn [option_bind].
  destruct (getitem_total _ _ Hname) as [m ->].
  rewrite (proj2 (getattr_inr _ _ (VFloat q)))
    by by rewrite !lookup_insert_ne.
  cbn [slider_float].
  rewrite (proj2 (getattr_inr _ _ (VInt z))) by by rewrite !lookup_insert_ne.
  cbn [slider_int].
  rewrite (proj2 (getattr_inr _ _ rv)) by by rewrite !lookup_insert_ne.
  by eexists.
Qed.

Lemma default_model_not_listed : ¬ listed_model "gemini-2.5-flash".
Proof.
  unfold listed_model. apply (proj1 (bool_decide_eq_false _)). reflexivity.
Qed.
End ConfigurationPageFacts.

Ltac page_lookups :=
  repeat first [rewrite lookup_insert_eq | rewrite lookup_insert_ne by done].

(** Whenever a run of the configuration page ends, whatever the user did
    and whatever the session held, the session holds a provider of
    [LLM_MODELS] (one the request model accepts) with one of the models
    listed for it, a float as temperature, an integer as token budget and
    a flag, and every other key of the session is as before.  The sliders
    keep a value within their bounds (0 to 1, 100 to 4096) within them,
    but do not bring a value outside them back: a slider that is left
    alone gives the value it was given. *)
Theorem configuration_page_leaves_valid_settings u st st' :
  ConfigurationPage.page u st = inr st' →
  let st0 := SessionState.initialize_llm_config_session_state st in
  (∃ p models name m,
     st' !! "llm_provider" = Some (SessionState.VStr p) ∧
     (p, models) ∈ LLM_MODELS ∧
     (name, m) ∈ models ∧
     st' !! "llm_model" = Some (SessionState.VStr m) ∧
     p ∈ GenerateRequest.providers ∧
     listed_model m) ∧
  (∃ q t z k b,
     st0 !! "temperature" = Some (SessionState.VFloat q) ∧
     st' !! "temperature" = Some (SessionState.VFloat t) ∧
     st0 !! "max_tokens" = Some (SessionState.VInt z) ∧
     st' !! "max_tokens" = Some (SessionState.VInt k) ∧
     st' !! "rag_enabled" = Some (SessionState.VBool b) ∧
     ((0 <= q)%Q → (q <= 1)%Q → (0 <= t)%Q ∧ (t <= 1)%Q) ∧
     (100 ≤ z ≤ 4096 → 100 ≤ k ≤ 4096) ∧
     (ConfigurationPage.temperature_slider u = None → t = q) ∧
     (ConfigurationPage.max_tokens_slider u = None → k = z) ∧
     ((0 <= q)%Q → (q <= 1)%Q → 100 ≤ z ≤ 4096 → configured st')) ∧
  (∀ k, k ∉ SessionState.config_keys → st' !! k = st !! k).
Proof.
  intros Hrun st0.
  destruct (page_inr u st st' Hrun)
    as (p & models & name & m & q & t & z & k & b & Hp & Hm & Hq & Hz
        & Ht & Hk & -> & _ & _ & Htq & Hkz & _).
  fold st0 in Hq, Hz. fold st0.
  split.
  { exists p, models, name, m. page_lookups.
    split; [done|]. split; [done|]. split; [done|]. split; [done|].
    split; [by eapply provider_of_LLM_MODELS | by eapply model_of_LLM_MODELS]. }
  split.
  { exists q, t, z, k, b. page_lookups.
    split; [done|]. split; [done|]. split; [done|]. split; [done|].
    split; [done|]. split; [done|]. split; [done|]. split; [done|].
    split; [done|]. intros Hq0 Hq1 Hz01.
    destruct (Ht Hq0 Hq1) as [Ht0 Ht1].
    exists p, models, name, m, t, k, b. page_lookups.
    repeat split; try done; by apply Hk. }
  intros key. unfold SessionState.config_keys. rewrite !not_elem_of_cons.
  intros (? & ? & ? & ? & ? & _).
  rewrite !lookup_insert_ne by done. subst st0. rewrite lookup_initialize.
  destruct (st !! key); [done|]. by rewrite !decide_False.
Qed.

(** A session whose temperature was set to 5: the page, left alone, ends
    and the temperature is still 5. *)
Lemma configuration_page_example :
  ∃ st',
    ConfigurationPage.page untouched
      {[ "temperature" := SessionState.VFloat (5 # 1) ]}
    = inr st' ∧
    st' !! "temperature" = Some (SessionState.VFloat (5 # 1)).
Proof.
  assert (∃ st',
            ConfigurationPage.page untouched
              {[ "temperature" := SessionState.VFloat (5 # 1) ]}
            = inr st') as [st' Hrun] by (eexists; reflexivity).
  exists st'. split; [exact Hrun|].
  destruct (configuration_page_leaves_valid_settings untouched
              {[ "temperature" := SessionState.VFloat (5 # 1) ]} st' Hrun)
    as (_ & (q & t & z & k & b & Hq & Ht & _ & _ & _ & _ & _ & Htq & _) & _).
  change (Some (SessionState.VFloat (5 # 1)) = Some (SessionState.VFloat q))
    in Hq.
  injection Hq as <-. by rewrite Ht, (Htq eq_refl).
Defined.

(** The default model of a new session, gemini-2.5-flash, is not one the
    configuration page offers: on a session without settings the page
    always runs to its end and never leaves that model; left alone, it
    replaces it by the first model listed for gemini, gemini-1.5-flash,
    and keeps the other defaults. *)
Theorem first_visit_replaces_default_model u st :
  (∀ k, k ∈ SessionState.config_keys → st !! k = None) →
  SessionState.initialize_llm_config_session_state st !! "llm_model"
  = Some (SessionState.VStr "gemini-2.5-flash") ∧
  (∃ st',
     ConfigurationPage.page u st = inr st' ∧
     st' !! "llm_model" ≠ Some (SessionState.VStr "gemini-2.5-flash")) ∧
  ∃ st',
    ConfigurationPage.page untouched st = inr st' ∧
    st' !! "llm_provider" = Some (SessionState.VStr "gemini") ∧
    st' !! "llm_model" = Some (SessionState.VStr "gemini-1.5-flash") ∧
    st' !! "temperature" = Some (SessionState.VFloat (3 # 10)) ∧
    st' !! "max_tokens" = Some (SessionState.VInt 1024) ∧
    st' !! "rag_enabled" = Some (SessionState.VBool false).
Proof.
  intros Hfresh.
  assert (∀ k, k ∈ SessionState.config_keys →
               SessionState.initialize_llm_config_session_state st !! k
               = SessionState.initialize_llm_config_session_state ∅ !! k)
    as Hdefault.
  { intros k Hk. rewrite !lookup_initialize, (Hfresh k Hk), lookup_empty.
    done. }
  assert (∀ u', ∃ st', ConfigurationPage.page u' st = inr st') as Htotal.
  { intros u'.
    apply (page_total u' st "gemini" (3 # 10) 1024).
    - rewrite Hdefault by listed. done.
    - listed.
    - rewrite Hdefault by listed. done.
    - rewrite Hdefault by listed. done. }
  split.
  { rewrite Hdefault by listed. done. }
  split.
  - destruct (Htotal u) as [st' Hrun]. exists st'. split; [done|].
    destruct (page_inr u st st' Hrun)
      as (p & models & name & m & q & t & z & k & b & Hp & Hm & _ & _ & _ & _
          & -> & _).
    page_lookups. intros [= ->].
    apply default_model_not_listed. by eapply model_of_LLM_MODELS.
  - destruct (Htotal untouched) as [st' Hrun]. exists st'. split; [done|].
    destruct (page_inr untouched st st' Hrun)
      as (p & models & name & m & q & t & z & k & b & Hp & Hm & Hq & Hz & _ & _
          & -> & Hprov & Hmodel & Htemp & Htok & Hrag).
    specialize (Hprov eq_refl). rewrite (Htemp eq_refl), (Htok eq_refl).
    destruct (Hmodel eq_refl) as (cur & Hcur & Hname).
    destruct (Hrag eq_refl) as (rv & Hrv & ->).
    rewrite Hdefault in Hprov, Hcur, Hq, Hz, Hrv by listed.
    injection Hprov as <-. injection Hcur as <-. injection Hq as <-.
    injection Hz as <-. injection Hrv as <-.
    page_lookups.
    unfold LLM_MODELS in Hp.
    repeat (apply elem_of_cons in Hp as [Hp|Hp]);
      try (by apply not_elem_of_nil in Hp); simplify_eq;
      vm_compute in Hname; simplify_eq;
      (repeat (apply elem_of_cons in Hm as [Hm|Hm]);
       try (by apply not_elem_of_nil in Hm); simplify_eq);
      done.
Qed.

(** The empty session. *)
Lemma first_visit_example :
  ∃ st',
    ConfigurationPage.page untouched ∅ = inr st' ∧
    st' !! "llm_model" = Some (SessionState.VStr "gemini-1.5-flash").
Proof.
  destruct (first_visit_replaces_default_model untouched ∅)
    as (_ & _ & st' & Hrun & _ & Hmodel & _).
  - intros k _. apply lookup_empty.
  - by exists st'.
Defined.

(** On a session with valid settings, a run of the configuration page on
    which the user touches nothing runs to its end and changes nothing. *)
Theorem untouched_page_keeps_settings st :
  configured st → ConfigurationPage.page untouched st = inr st.
Proof.
  intros (p & models & name & m & t & k & b
          & Hp & Hmodels & Hm & Hmod & Ht & Ht0 & Ht1 & Hk & Hk01 & Hb).
  assert (SessionState.initialize_llm_config_session_state st = st) as Hinit.
  { apply map_eq. intros key. rewrite lookup_initialize.
    destruct (st !! key) eqn:Hkey; [done|].
    repeat case_decide; subst; congruence. }
  destruct (page_total untouched st p t k) as [st' Hrun];
    rewrite ?Hinit; try done.
  { apply list_elem_of_fmap. by exists (p, models). }
  rewrite Hrun. f_equal.
  destruct (page_inr untouched st st' Hrun)
    as (p' & models' & name' & m' & q' & t' & z' & k' & b' & Hp' & Hm'
        & Hq' & Hz' & _ & _ & -> & Hprov & Hmodel & Htemp & Htok & Hrag).
  rewrite Hinit in *.
  specialize (Hprov eq_refl). rewrite (Htemp eq_refl), (Htok eq_refl).
  destruct (Hmodel eq_refl) as (cur & Hcur & Hname).
  destruct (Hrag eq_refl) as (rv & Hrv & ->).
  assert (p' = p) as -> by congruence.
  assert (q' = t) as -> by congruence.
  assert (z' = k) as -> by congruence.
  assert (cur = SessionState.VStr m) as -> by congruence.
  assert (rv = SessionState.VBool b) as -> by congruence.
  cbn [ConfigurationPage.truth].
  assert (m' = m) as ->.
  { clear Hp Hmod Ht Hk Hb Hprov Hcur Htemp Htok Hrv Hrun Hinit Hq' Hz'.
    unfold LLM_MODELS in Hmodels, Hp'.
    repeat (apply elem_of_cons in Hmodels as [Hmodels|Hmodels]);
      try (by apply not_elem_of_nil in Hmodels); simplify_eq;
      (repeat (apply elem_of_cons in Hp' as [Hp'|Hp']);
       try (by apply not_elem_of_nil in Hp'); simplify_eq);
      (repeat (apply elem_of_cons in Hm as [Hm|Hm]);
       try (by apply not_elem_of_nil in Hm); simplify_eq);
      vm_compute in Hname; simplify_eq;
      (repeat (apply elem_of_cons in Hm' as [Hm'|Hm']);
       try (by apply not_elem_of_nil in Hm'); simplify_eq);
      reflexivity. }
  rewrite (insert_id st "llm_provider" _ Hp).
  rewrite (insert_id st "llm_model" _ Hmod).
  rewrite (insert_id st "temperature" _ Ht).
  rewrite (insert_id st "max_tokens" _ Hk).
  by rewrite (insert_id st "rag_enabled" _ Hb).
Qed.

(** A session set to openai and gpt-4o-mini. *)
Lemma untouched_page_example :
  ConfigurationPage.page untouched
    {[ "llm_provider" := SessionState.VStr "openai";
       "llm_model" := SessionState.VStr "gpt-4o-mini";
       "temperature" := SessionState.VFloat (7 # 10);
       "max_tokens" := SessionState.VInt 2000;
       "rag_enabled" := SessionState.VBool true;
       "chat_session_id" := SessionState.VStr "s1" ]}
  = inr {[ "llm_provider" := SessionState.VStr "openai";
           "llm_model" := SessionState.VStr "gpt-4o-mini";
           "temperature" := SessionState.VFloat (7 # 10);
           "max_tokens" := SessionState.VInt 2000;
           "rag_enabled" := SessionState.VBool true;
           "chat_session_id" := SessionState.VStr "s1" ]}.
Proof.
  apply untouched_page_keeps_settings.
  exists "openai",
    [("GPT-4o", "gpt-4o"); ("GPT-4o-mini", "gpt-4o-mini");
     ("GPT-3.5 Turbo", "gpt-3.5-turbo")],
    "GPT-4o-mini", "gpt-4o-mini", (7 # 10), 2000, true.
  split; [reflexivity|]. split; [listed|]. split; [listed|].
  split; [reflexivity|]. split; [reflexivity|].
  split; [unfold Qle; simpl; lia|]. split; [unfold Qle; simpl; lia|].
  split; [reflexivity|]. split; [lia|]. reflexivity.
Defined.
